(** * Trebal API: the value-distribution rules and the certificate lifecycle

    A shallow embedding of [constitution.js] (face-value ladder, LV/UV split,
    cash-out split, sponsorship split, internal allocation, seller classes)
    and of the certificate handlers of the Express server (purchase, gift,
    stack, cash-out, sponsorship convert).

    JavaScript numbers are IEEE-754 binary64 values.  They are modelled by
    [spec_float] with the operations of the standard library's [SpecFloat]
    (53 bits of precision, round to nearest even), so that [uv * 0.35] means
    here exactly what it means when the source runs.  Amounts are integers;
    the statements about all amounts range over the integers that a number
    holds exactly, 0 to [MAX_SAFE_INTEGER].

    The file has three parts: the definitions (numbers, exceptions, the
    rules, the server and its tables), the facts about binary64 rounding
    that the rules need, and the properties of the rules and handlers. *)

From Stdlib Require Import ZArith Lia List Bool String.
From Stdlib Require Import Floats.SpecFloat.
Import ListNotations.

Local Open Scope Z_scope.
Local Open Scope string_scope.

(** ** JavaScript numbers *)

Module Js.

Definition prec : Z := 53.
Definition emax : Z := 1024.

Definition number : Type := spec_float.

(** [Number.MAX_SAFE_INTEGER]: up to here every integer is a number. *)
Definition MAX_SAFE_INTEGER : Z := 2 ^ 53 - 1.

(** The number denoted by an integer literal (correctly rounded). *)
Definition of_Z (z : Z) : number := binary_normalize prec emax z 0 false.

(** The number denoted by the decimal literal [n/d], e.g. [0.35] is
    [decimal 35 100]: the binary64 value nearest to the fraction. *)
Definition decimal (n d : Z) : number := SFdiv prec emax (of_Z n) (of_Z d).

(** [x * y] and [x - y]. *)
Definition mul (x y : number) : number := SFmul prec emax x y.
Definition sub (x y : number) : number := SFsub prec emax x y.

(** [x >= y]; false as soon as one side is NaN. *)
Definition geb (x y : number) : bool := SFleb y x.

(** The integer a number stands for, when it is integral. *)
Definition to_Z (x : number) : option Z :=
  match x with
  | S754_zero _ => Some 0
  | S754_finite s m e =>
      if (0 <=? e)%Z then Some (cond_Zopp s (Zpos m * 2 ^ e))
      else if ((Zpos m) mod 2 ^ (- e) =? 0)%Z
           then Some (cond_Zopp s (Zpos m / 2 ^ (- e)))
           else None
  | _ => None
  end.

(** [Math.floor(x)]: the greatest integral number not above [x]. *)
Definition Math_floor (x : number) : number :=
  match x with
  | S754_finite s m e =>
      if (0 <=? e)%Z then x
      else binary_normalize prec emax (cond_Zopp s (Zpos m) / 2 ^ (- e)) 0 s
  | _ => x
  end.

(** [Math.round(x)]: the integral number closest to [x], the one towards
    +infinity on a tie; -0 for [x] in [-0.5, -0]. *)
Definition Math_round (x : number) : number :=
  match x with
  | S754_finite s m e =>
      if (0 <=? e)%Z then x
      else binary_normalize prec emax
             ((2 * cond_Zopp s (Zpos m) + 2 ^ (- e)) / 2 ^ (- e + 1)) 0 s
  | _ => x
  end.

(** The SameValueZero comparison of [Array.prototype.includes]. *)
Definition sameValueZero (x y : number) : bool :=
  match x, y with
  | S754_nan, S754_nan => true
  | _, _ => SFeqb x y
  end.

Definition includes (l : list number) (x : number) : bool :=
  existsb (sameValueZero x) l.

(** Reading [obj[k]] on an object literal whose keys are integers: the
    key of a number is its canonical string, which names an integer key
    exactly when the number is that integer. *)
Fixpoint get {A : Type} (obj : list (Z * A)) (k : number) : option A :=
  match obj with
  | [] => None
  | (i, a) :: rest =>
      match to_Z k with
      | Some z => if (z =? i)%Z then Some a else get rest k
      | None => None
      end
  end.

End Js.

Import Js.

(** ** Exceptions *)

Inductive result (A : Type) : Type :=
| Return (a : A)
| Throw (message : string).

Arguments Return {A} a.
Arguments Throw {A} message.

Definition bind {A B : Type} (r : result A) (k : A -> result B) : result B :=
  match r with
  | Return a => k a
  | Throw msg => Throw msg
  end.

Notation "x <- r ;; k" := (bind r (fun x => k))
  (at level 61, r at next level, right associativity).
Notation "r ;;; k" := (bind r (fun _ => k))
  (at level 61, right associativity).

(** ** constitution.js *)

(** The integer literals of the ladder, and the numbers they denote. *)
Definition LADDER_LITERALS : list Z :=
  [250; 500; 1000; 2000; 4000; 8000; 15000; 30000; 60000; 120000;
   220000; 380000; 600000; 850000; 1000000].

Definition NFT_FACE_VALUE_LADDER : list number := map of_Z LADDER_LITERALS.

Definition assertFaceValueAllowed (value : number) : result unit :=
  if negb (includes NFT_FACE_VALUE_LADDER value)
  then Throw "FACE_VALUE_NOT_ALLOWED"
  else Return tt.

Definition LV_RATE : number := decimal 10 100.
Definition UV_RATE : number := decimal 90 100.

Record LvUv : Type := { lv : number; uv : number }.

Definition splitLvUv (faceValue : number) : result LvUv :=
  assertFaceValueAllowed faceValue ;;;
  let lv := Math_round (mul faceValue LV_RATE) in
  let uv := sub faceValue lv in
  Return {| lv := lv; uv := uv |}.

Record CashOutRow : Type :=
  { collaboratorUvPct : number; trebalUvPct : number }.

Definition CASH_OUT_TABLE : list (Z * CashOutRow) :=
  [ (1, {| collaboratorUvPct := decimal 30 100; trebalUvPct := decimal 70 100 |});
    (2, {| collaboratorUvPct := decimal 35 100; trebalUvPct := decimal 65 100 |});
    (3, {| collaboratorUvPct := decimal 40 100; trebalUvPct := decimal 60 100 |});
    (4, {| collaboratorUvPct := decimal 45 100; trebalUvPct := decimal 55 100 |});
    (5, {| collaboratorUvPct := decimal 50 100; trebalUvPct := decimal 50 100 |}) ].

Record CashOut : Type :=
  { collaboratorPayout : number; trebalCapture : number }.

Definition cashOutSplit (batchCount uv : number) : result CashOut :=
  match get CASH_OUT_TABLE batchCount with
  | None => Throw "INVALID_BATCH_COUNT"
  | Some row =>
      let collaboratorPayout := Math_floor (mul uv (collaboratorUvPct row)) in
      let trebalCapture := sub uv collaboratorPayout in
      Return {| collaboratorPayout := collaboratorPayout;
                trebalCapture := trebalCapture |}
  end.

Record Sponsorship : Type :=
  { collaborator : number; seller : number; retained : number }.

Definition sponsorshipSplit (uv : number) : Sponsorship :=
  let collaborator := Math_floor (mul uv (decimal 50 100)) in
  let seller := Math_floor (mul uv (decimal 25 100)) in
  let retained := sub (sub uv collaborator) seller in
  {| collaborator := collaborator; seller := seller; retained := retained |}.

Record Allocation : Type := { platformFee : number; discountPool : number }.

Definition distributionInternalAllocationFromUv (uvOriginal : number) : Allocation :=
  let platformFee := Math_floor (mul uvOriginal (decimal 10 100)) in
  let discountPool := Math_floor (mul uvOriginal (decimal 15 100)) in
  {| platformFee := platformFee; discountPool := discountPool |}.

Definition computeSellerClass (sem : number) : string :=
  if geb sem (of_Z 300) then "A"
  else if geb sem (of_Z 150) then "B"
  else if geb sem (of_Z 80) then "C"
  else if geb sem (of_Z 40) then "D"
  else "E".

Definition DISTRIBUTION_TERMINAL_THRESHOLD : number := of_Z 40.

Definition assertSellerCanDistribute (sellerClass : string) : result unit :=
  if String.eqb sellerClass "E"
  then Throw "SELLER_CLASS_E_NOT_PERMITTED"
  else Return tt.

(** [DECAY_RATE_BY_CLASS], an object keyed by the class letters. *)
Definition DECAY_RATE_BY_CLASS : list (string * number) :=
  [ ("A", decimal 4 100); ("B", decimal 8 100); ("C", decimal 12 100);
    ("D", decimal 15 100); ("E", of_Z 0) ].

(** Reading [obj[k]] for a string key. *)
Fixpoint lookup {A : Type} (obj : list (string * A)) (k : string) : option A :=
  match obj with
  | [] => None
  | (key, a) :: rest => if String.eqb key k then Some a else lookup rest k
  end.

(** ** The server: tables, middleware and certificate handlers *)

Module User.
Record t : Type := { id : string; roles : list string }.
End User.

Module Nft.
Record t : Type :=
  { id : string;
    faceValue : number;
    lockedValue : number;
    usableValue : number;
    state : string;
    ownerId : string;
    giftedFromId : option string;
    distributionRemainingValue : option number }.
End Nft.

Inductive Json : Type :=
| JString (s : string)
| JNumber (n : number).

Module AuditEvent.
Record t : Type :=
  { actorId : option string; type : string; payload : list (string * Json) }.
End AuditEvent.

Record Db : Type :=
  { users : list User.t; nfts : list Nft.t; auditEvents : list AuditEvent.t }.

(** The verified token payload that [auth] stores in [req.user]. *)
Module Jwt.
Record t : Type := { sub : string; roles : list string }.
End Jwt.

Inductive Body : Type :=
| Error (error : string)
| OkNft (nft : Nft.t)
| OkPayout (nft : Nft.t) (payout : CashOut)
| OkSponsorship (nft : Nft.t) (split : Sponsorship) (allocation : Allocation).

(** What a request ends in: a JSON response with its status, or an
    exception that leaves the handler. *)
Inductive Outcome : Type :=
| Respond (status : Z) (body : Body)
| Uncaught (message : string).

Definition handler : Type := Db -> Outcome * Db.

Definition has (role : string) (roles : list string) : bool :=
  existsb (String.eqb role) roles.

Definition auth (token : option Jwt.t) (next : Jwt.t -> handler) : handler :=
  fun db =>
    match token with
    | None => (Respond 401 (Error "UNAUTHENTICATED"), db)
    | Some user => next user db
    end.

Definition requireRole (role : string) (user : Jwt.t) (next : handler) : handler :=
  fun db =>
    if negb (has role (Jwt.roles user))
    then (Respond 403 (Error "FORBIDDEN"), db)
    else next db.

Definition findNft (db : Db) (id : string) : option Nft.t :=
  find (fun n => String.eqb (Nft.id n) id) (nfts db).

Definition findUser (db : Db) (id : string) : option User.t :=
  find (fun u => String.eqb (User.id u) id) (users db).

(** [prisma.nft.count({ where: { ownerId, state: { not: "RETIRED" } } })] *)
Definition countActive (db : Db) (ownerId : string) : Z :=
  Z.of_nat
    (List.length
       (filter (fun n => String.eqb (Nft.ownerId n) ownerId
                         && negb (String.eqb (Nft.state n) "RETIRED"))
          (nfts db))).

(** [tx.nft.update({ where: { id }, data })] followed by
    [tx.auditEvent.create], in one transaction; the update fails when no
    row has the id. *)
Definition updateNft (db : Db) (id : string) (data : Nft.t -> Nft.t)
    (event : AuditEvent.t) : option (Nft.t * Db) :=
  match findNft db id with
  | None => None
  | Some row =>
      Some (data row,
            {| users := users db;
               nfts := map (fun n => if String.eqb (Nft.id n) id then data n else n)
                         (nfts db);
               auditEvents := (auditEvents db ++ [event])%list |})
  end.

Definition committed (tx : option (Nft.t * Db)) (db : Db)
    (respond : Nft.t -> Body) : Outcome * Db :=
  match tx with
  | None => (Uncaught "RecordNotFound", db)
  | Some (row, db') => (Respond 200 (respond row), db')
  end.

(** POST /nft/purchase; [newId] is the id the database gives the row. *)
Definition nft_purchase (token : option Jwt.t) (faceValue : number) (newId : string)
    : handler :=
  auth token (fun user => requireRole "CUSTOMER" user (fun db =>
    match to_Z faceValue with
    | None => (Uncaught "ZodError", db)
    | Some _ =>
        match assertFaceValueAllowed faceValue ;;; splitLvUv faceValue with
        | Throw msg => (Uncaught msg, db)
        | Return split =>
            let created :=
              {| Nft.id := newId; Nft.faceValue := faceValue;
                 Nft.lockedValue := lv split; Nft.usableValue := uv split;
                 Nft.state := "GIFT"; Nft.ownerId := Jwt.sub user;
                 Nft.giftedFromId := None;
                 Nft.distributionRemainingValue := None |} in
            (Respond 200 (OkNft created),
             {| users := users db;
                nfts := (nfts db ++ [created])%list;
                auditEvents :=
                  (auditEvents db ++
                   [ {| AuditEvent.actorId := Some (Jwt.sub user);
                        AuditEvent.type := "NFT_PURCHASED";
                        AuditEvent.payload :=
                          [("nftId", JString newId); ("faceValue", JNumber faceValue);
                           ("lv", JNumber (lv split)); ("uv", JNumber (uv split))] |} ])%list |})
        end
    end)).

(** POST /nft/gift *)
Definition nft_gift (token : option Jwt.t) (nftId collaboratorId : string) : handler :=
  auth token (fun user => requireRole "CUSTOMER" user (fun db =>
    match findNft db nftId with
    | None => (Respond 404 (Error "NFT_NOT_FOUND"), db)
    | Some nft =>
        if negb (String.eqb (Nft.ownerId nft) (Jwt.sub user))
        then (Respond 403 (Error "NOT_OWNER"), db)
        else if negb (match findUser db collaboratorId with
                      | None => false
                      | Some collaborator => has "COLLABORATOR" (User.roles collaborator)
                      end)
        then (Respond 400 (Error "INVALID_COLLABORATOR"), db)
        else
          let count := countActive db collaboratorId in
          if (5 <=? count)%Z
          then (Respond 409 (Error "COLLABORATOR_NFT_CAP_REACHED"), db)
          else
            committed
              (updateNft db nftId
                 (fun n =>
                    {| Nft.id := Nft.id n; Nft.faceValue := Nft.faceValue n;
                       Nft.lockedValue := Nft.lockedValue n;
                       Nft.usableValue := Nft.usableValue n;
                       Nft.state := "GIFT"; Nft.ownerId := collaboratorId;
                       Nft.giftedFromId := Some (Jwt.sub user);
                       Nft.distributionRemainingValue :=
                         Nft.distributionRemainingValue n |})
                 {| AuditEvent.actorId := Some (Jwt.sub user);
                    AuditEvent.type := "NFT_GIFTED";
                    AuditEvent.payload :=
                      [("nftId", JString nftId); ("to", JString collaboratorId)] |})
              db OkNft
    end)).

Definition withState (state : string) (n : Nft.t) : Nft.t :=
  {| Nft.id := Nft.id n; Nft.faceValue := Nft.faceValue n;
     Nft.lockedValue := Nft.lockedValue n; Nft.usableValue := Nft.usableValue n;
     Nft.state := state; Nft.ownerId := Nft.ownerId n;
     Nft.giftedFromId := Nft.giftedFromId n;
     Nft.distributionRemainingValue := Nft.distributionRemainingValue n |}.

(** POST /collab/nft/stack *)
Definition nft_stack (token : option Jwt.t) (nftId : string) : handler :=
  auth token (fun user => requireRole "COLLABORATOR" user (fun db =>
    match findNft db nftId with
    | None => (Respond 404 (Error "NFT_NOT_FOUND"), db)
    | Some nft =>
        if negb (String.eqb (Nft.ownerId nft) (Jwt.sub user))
        then (Respond 403 (Error "NOT_OWNER"), db)
        else if String.eqb (Nft.state nft) "RETIRED"
        then (Respond 409 (Error "NFT_RETIRED"), db)
        else
          committed
            (updateNft db nftId (withState "STACKED")
               {| AuditEvent.actorId := Some (Jwt.sub user);
                  AuditEvent.type := "NFT_STACKED";
                  AuditEvent.payload := [("nftId", JString nftId)] |})
            db OkNft
    end)).

(** The request schema of cash-out: [z.number().int().min(1).max(5)]. *)
Definition batchCountSchema (batchCount : number) : bool :=
  match to_Z batchCount with
  | Some z => ((1 <=? z) && (z <=? 5))%Z
  | None => false
  end.

(** POST /collab/nft/cashout *)
Definition nft_cashout (token : option Jwt.t) (nftId : string) (batchCount : number)
    : handler :=
  auth token (fun user => requireRole "COLLABORATOR" user (fun db =>
    if negb (batchCountSchema batchCount) then (Uncaught "ZodError", db)
    else
    match findNft db nftId with
    | None => (Respond 404 (Error "NFT_NOT_FOUND"), db)
    | Some nft =>
        if negb (String.eqb (Nft.ownerId nft) (Jwt.sub user))
        then (Respond 403 (Error "NOT_OWNER"), db)
        else if String.eqb (Nft.state nft) "RETIRED"
        then (Respond 409 (Error "NFT_RETIRED"), db)
        else
          match cashOutSplit batchCount (Nft.usableValue nft) with
          | Throw msg => (Uncaught msg, db)
          | Return payout =>
              committed
                (updateNft db nftId (withState "RETIRED")
                   {| AuditEvent.actorId := Some (Jwt.sub user);
                      AuditEvent.type := "NFT_CASHED_OUT";
                      AuditEvent.payload :=
                        [("nftId", JString nftId); ("batchCount", JNumber batchCount);
                         ("collaboratorPayout", JNumber (collaboratorPayout payout));
                         ("trebalCapture", JNumber (trebalCapture payout))] |})
                db (fun retired => OkPayout retired payout)
          end
    end)).

(** POST /collab/nft/sponsorship-convert *)
Definition nft_sponsorship_convert (token : option Jwt.t) (nftId sellerId : string)
    : handler :=
  auth token (fun user => requireRole "COLLABORATOR" user (fun db =>
    match findNft db nftId with
    | None => (Respond 404 (Error "NFT_NOT_FOUND"), db)
    | Some nft =>
        if negb (match findUser db sellerId with
                 | None => false
                 | Some seller => has "SELLER" (User.roles seller)
                 end)
        then (Respond 400 (Error "INVALID_SELLER"), db)
        else if negb (String.eqb (Nft.ownerId nft) (Jwt.sub user))
        then (Respond 403 (Error "NOT_OWNER"), db)
        else if String.eqb (Nft.state nft) "RETIRED"
        then (Respond 409 (Error "NFT_RETIRED"), db)
        else
          let split := sponsorshipSplit (Nft.usableValue nft) in
          let allocation := distributionInternalAllocationFromUv (Nft.usableValue nft) in
          committed
            (updateNft db nftId
               (fun n =>
                  {| Nft.id := Nft.id n; Nft.faceValue := Nft.faceValue n;
                     Nft.lockedValue := Nft.lockedValue n;
                     Nft.usableValue := Nft.usableValue n;
                     Nft.state := "DISTRIBUTION"; Nft.ownerId := sellerId;
                     Nft.giftedFromId := Nft.giftedFromId n;
                     Nft.distributionRemainingValue := Some (retained split) |})
               {| AuditEvent.actorId := Some (Jwt.sub user);
                  AuditEvent.type := "NFT_SPONSORSHIP_CONVERTED";
                  AuditEvent.payload :=
                    [("nftId", JString nftId); ("sellerId", JString sellerId);
                     ("collaboratorPayout", JNumber (collaborator split));
                     ("sellerInstantValue", JNumber (seller split));
                     ("retained", JNumber (retained split));
                     ("platformFeeFromUv", JNumber (platformFee allocation));
                     ("discountPoolFromUv", JNumber (discountPool allocation))] |})
            db (fun converted => OkSponsorship converted split allocation)
    end)).


(** ** The rules as they are stated, over the integers *)

(** [n/d] rounded to the nearest integer, a tie going up. *)
Definition round_half_up (n d : Z) : Z := (2 * n + d) / (2 * d).

(** [floor(uv * pct / 100)], the exact percentage of an amount. *)
Definition percent (pct uv : Z) : Z := uv * pct / 100.

(** The collaborator's percentage of each batch count. *)
Definition collaboratorPct (batchCount : Z) : Z := 25 + 5 * batchCount.

(** The seller classes by their thresholds:
    A: sem >= 300, B: sem >= 150, C: sem >= 80, D: sem >= 40, E: otherwise. *)
Definition sellerClassByThreshold (sem : Z) : string :=
  if (300 <=? sem)%Z then "A"
  else if (150 <=? sem)%Z then "B"
  else if (80 <=? sem)%Z then "C"
  else if (40 <=? sem)%Z then "D"
  else "E".

(** ** Binary64 rounding, over the integers *)

(** [M / 2^n] rounded to the nearest integer, a tie going to the even one:
    what rounding an exact mantissa [M] that is [n] bits too long leaves. *)
Definition rne (M n : Z) : Z :=
  let q := M / 2 ^ n in
  let r := M mod 2 ^ n in
  let h := 2 ^ (n - 1) in
  if (r <? h)%Z then q
  else if (h <? r)%Z then q + 1
  else if Z.even q then q else q + 1.

(** The state of the shift register after [k] right shifts of [M]: the
    quotient, the last bit shifted out and whether anything was lost
    before it. *)
Definition shifted (M k : Z) (mrs : shr_record) : Prop :=
  let r := M mod 2 ^ k in
  shr_m mrs = M / 2 ^ k /\
  (k = 0 -> shr_r mrs = false /\ shr_s mrs = false) /\
  (0 < k ->
     shr_r mrs = (2 ^ (k - 1) <=? r)%Z /\
     shr_s mrs = negb ((if shr_r mrs then r - 2 ^ (k - 1) else r) =? 0)%Z).

(** Mantissa and exponent of the number of a positive integer below 2^53. *)
Definition mant (z : Z) : Z := z * 2 ^ (52 - Z.log2 z).
Definition expo (z : Z) : Z := Z.log2 z - 52.

(** ** The routes together *)

(** The certificate routes of the server, each with the fields of its
    request body ([newId] as for [nft_purchase]). *)
Inductive Request : Type :=
| Purchase (faceValue : number) (newId : string)
| Gift (nftId collaboratorId : string)
| Stack (nftId : string)
| Cashout (nftId : string) (batchCount : number)
| SponsorshipConvert (nftId sellerId : string).

Definition route (token : option Jwt.t) (request : Request) : handler :=
  match request with
  | Purchase faceValue newId => nft_purchase token faceValue newId
  | Gift nftId collaboratorId => nft_gift token nftId collaboratorId
  | Stack nftId => nft_stack token nftId
  | Cashout nftId batchCount => nft_cashout token nftId batchCount
  | SponsorshipConvert nftId sellerId => nft_sponsorship_convert token nftId sellerId
  end.

(** The role that the route asks of the caller. *)
Definition routeRole (request : Request) : string :=
  match request with
  | Purchase _ _ | Gift _ _ => "CUSTOMER"
  | Stack _ | Cashout _ _ | SponsorshipConvert _ _ => "COLLABORATOR"
  end.

(** The certificate that a request addresses. *)
Definition target (request : Request) : string :=
  match request with
  | Purchase _ newId => newId
  | Gift nftId _ | Stack nftId | Cashout nftId _ | SponsorshipConvert nftId _ => nftId
  end.

(** A run of requests, one after the other. *)
Fixpoint run (requests : list (option Jwt.t * Request)) (db : Db) : Db :=
  match requests with
  | [] => db
  | (token, request) :: rest => run rest (snd (route token request db))
  end.

(** An answer [res.json({ ok: true, ... })]. *)
Definition succeeded (out : Outcome) : bool :=
  match out with
  | Respond 200 _ => true
  | _ => false
  end.

(** A certificate as the handlers make and keep it: a face value of the
    ladder with its tenth locked and the rest usable, one of the four
    states, and a remaining value once it is a DISTRIBUTION certificate. *)
Definition certificateOk (n : Nft.t) : Prop :=
  (exists f, In f LADDER_LITERALS /\
             Nft.faceValue n = of_Z f /\
             Nft.lockedValue n = of_Z (f / 10) /\
             Nft.usableValue n = of_Z (f - f / 10)) /\
  In (Nft.state n) ["GIFT"; "STACKED"; "DISTRIBUTION"; "RETIRED"] /\
  (Nft.state n = "DISTRIBUTION" -> Nft.distributionRemainingValue n <> None).

Definition dbOk (db : Db) : Prop := Forall certificateOk (nfts db).

(** The state and the owner that a successful request leaves its
    certificate with. *)
Definition stateAfter (request : Request) : string :=
  match request with
  | Purchase _ _ | Gift _ _ => "GIFT"
  | Stack _ => "STACKED"
  | Cashout _ _ => "RETIRED"
  | SponsorshipConvert _ _ => "DISTRIBUTION"
  end.

Definition ownerAfter (request : Request) (caller owner : string) : string :=
  match request with
  | Purchase _ _ => caller
  | Gift _ collaboratorId => collaboratorId
  | SponsorshipConvert _ sellerId => sellerId
  | Stack _ | Cashout _ _ => owner
  end.

(** ** Scenarios *)

Definition alice : Jwt.t := {| Jwt.sub := "alice"; Jwt.roles := ["CUSTOMER"] |}.
Definition bob : Jwt.t := {| Jwt.sub := "bob"; Jwt.roles := ["COLLABORATOR"] |}.
Definition dana : Jwt.t :=
  {| Jwt.sub := "dana"; Jwt.roles := ["CUSTOMER"; "COLLABORATOR"] |}.

Definition people : list User.t :=
  [ {| User.id := "alice"; User.roles := ["CUSTOMER"] |};
    {| User.id := "bob"; User.roles := ["COLLABORATOR"] |};
    {| User.id := "dana"; User.roles := ["CUSTOMER"; "COLLABORATOR"] |} ].

Definition emptyDb : Db := {| users := people; nfts := []; auditEvents := [] |}.

(** Alice buys a certificate of 380000 and gives it to Bob. *)
Definition dbBobHolds380000 : Db :=
  snd (nft_gift (Some alice) "n1" "bob"
         (snd (nft_purchase (Some alice) (of_Z 380000) "n1" emptyDb))).

(** Dana buys a certificate of 1000 and cashes it out herself. *)
Definition dbDanaCashedOut : Db :=
  snd (nft_cashout (Some dana) "n1" (of_Z 1)
         (snd (nft_purchase (Some dana) (of_Z 1000) "n1" emptyDb))).

(** A certificate of 1000 as purchase creates it. *)
Definition certificate (id owner state : string) : Nft.t :=
  {| Nft.id := id; Nft.faceValue := of_Z 1000;
     Nft.lockedValue := of_Z 100; Nft.usableValue := of_Z 900;
     Nft.state := state; Nft.ownerId := owner;
     Nft.giftedFromId := None; Nft.distributionRemainingValue := None |}.

(** Bob holds five active certificates and a retired one; Alice holds one. *)
Definition dbBobAtCapacity : Db :=
  {| users := people;
     nfts := [ certificate "b1" "bob" "GIFT"; certificate "b2" "bob" "STACKED";
               certificate "b3" "bob" "GIFT"; certificate "b0" "bob" "RETIRED";
               certificate "b4" "bob" "STACKED"; certificate "b5" "bob" "GIFT";
               certificate "a1" "alice" "GIFT" ];
     auditEvents := [] |}.

(** Bob holds a stacked certificate and Sam is a seller. *)
Definition dbWithSeller : Db :=
  {| users := (people ++ [ {| User.id := "sam"; User.roles := ["SELLER"] |} ])%list;
     nfts := [ certificate "b1" "bob" "STACKED" ];
     auditEvents := [] |}.

(** Dana's requests on her retired certificate, none of them a gift. *)
Definition afterRetirement : list (option Jwt.t * Request) :=
  [ (Some dana, Stack "n1");
    (Some dana, Cashout "n1" (of_Z 5));
    (Some dana, SponsorshipConvert "n1" "bob");
    (Some dana, Purchase (of_Z 1000) "n1") ].

Local Close Scope string_scope.

(** * Binary64 arithmetic on integral amounts *)

(** ** Powers of two and the number of digits *)

Lemma pow2_pos n : 0 <= n -> 0 < 2 ^ n.
Proof. intros. apply Z.pow_pos_nonneg; lia. Qed.

Lemma pow2_succ n : 0 <= n -> 2 ^ (n + 1) = 2 * 2 ^ n.
Proof. intros. rewrite Z.pow_add_r by lia. lia. Qed.

Lemma digits2_pos_log2 p : Zpos (digits2_pos p) = Z.log2 (Zpos p) + 1.
Proof.
  destruct p as [p|p|]; simpl; try reflexivity;
    rewrite Pos2Z.inj_succ; f_equal;
    induction p as [p IH|p IH|]; simpl; try reflexivity;
    rewrite !Pos2Z.inj_succ, IH; reflexivity.
Qed.

Lemma digits2_pos_unique p d :
  2 ^ (d - 1) <= Zpos p < 2 ^ d -> 1 <= d -> Zpos (digits2_pos p) = d.
Proof.
  intros H Hd. rewrite digits2_pos_log2.
  rewrite (Z.log2_unique (Zpos p) (d - 1)); try lia.
  replace (Z.succ (d - 1)) with d by lia. exact H.
Qed.

Lemma digits2_pos_bounds p :
  2 ^ (Zpos (digits2_pos p) - 1) <= Zpos p < 2 ^ Zpos (digits2_pos p).
Proof.
  rewrite digits2_pos_log2.
  replace (Z.log2 (Zpos p) + 1 - 1) with (Z.log2 (Zpos p)) by lia.
  apply Z.log2_spec. lia.
Qed.

(** [iter_pos], the iterator of the shifts, is plain iteration. *)
Lemma iter_pos_nat {A} (f : A -> A) n x :
  iter_pos f n x = Nat.iter (Pos.to_nat n) f x.
Proof.
  revert x. induction n as [n IH|n IH|]; intros x; cbn [iter_pos].
  - rewrite !IH, Pos2Nat.inj_xI.
    replace (S (2 * Pos.to_nat n))%nat with (Pos.to_nat n + (Pos.to_nat n + 1))%nat by lia.
    rewrite !Nat.iter_add. reflexivity.
  - rewrite !IH, Pos2Nat.inj_xO.
    replace (2 * Pos.to_nat n)%nat with (Pos.to_nat n + Pos.to_nat n)%nat by lia.
    rewrite Nat.iter_add. reflexivity.
  - reflexivity.
Qed.

(** ** Right shifts and rounding to nearest even *)

(** One more shift keeps the register in step with [M / 2^k]. *)
Lemma shr_1_shifted M k mrs :
  0 <= M -> 0 <= k -> shifted M k mrs -> shifted M (k + 1) (shr_1 mrs).
Proof.
  intros HM Hk (Hm & H0 & Hpos).
  assert (P := pow2_pos k Hk).
  assert (E : 2 ^ (k + 1) = 2 * 2 ^ k) by (apply pow2_succ; lia).
  assert (Hq : M / 2 ^ (k + 1) = (M / 2 ^ k) / 2).
  { rewrite E, Z.mul_comm. rewrite Z.div_div by lia. reflexivity. }
  assert (Hr : M mod 2 ^ (k + 1) = M mod 2 ^ k + 2 ^ k * ((M / 2 ^ k) mod 2)).
  { rewrite E, Z.mul_comm. rewrite Z.rem_mul_r by lia. lia. }
  assert (Hb := Z.mod_pos_bound M (2 ^ k) P).
  assert (Hq0 : 0 <= M / 2 ^ k) by (apply Z.div_pos; lia).
  unfold shifted. replace (k + 1 - 1) with k by lia.
  rewrite Hq, Hr.
  destruct mrs as [m r s]; cbn [shr_m shr_r shr_s] in *. subst m.
  assert (Hs : orb r s = negb (M mod 2 ^ k =? 0)).
  { destruct (Z.eq_dec k 0) as [->|Hk0].
    - destruct H0 as [-> ->]; [reflexivity|]. rewrite Z.pow_0_r, Z.mod_1_r. reflexivity.
    - destruct Hpos as [Hr' Hs']; [lia|].
      assert (P' := pow2_pos (k - 1) ltac:(lia)).
      subst s. rewrite Hr'.
      destruct (Z.leb_spec (2 ^ (k - 1)) (M mod 2 ^ k)); cbn [orb].
      + symmetry. apply negb_true_iff. apply Z.eqb_neq. lia.
      + reflexivity. }
  remember (M / 2 ^ k) as q eqn:Eq.
  assert (D1 : forall p, (2 * Z.pos p + 1) / 2 = Z.pos p)
    by (intros; symmetry; apply Z.div_unique with 1; lia).
  assert (D2 : forall p, (2 * Z.pos p + 1) mod 2 = 1)
    by (intros p; symmetry; apply Z.mod_unique with (Z.pos p); lia).
  assert (D3 : forall p, (2 * Z.pos p) / 2 = Z.pos p)
    by (intros; symmetry; apply Z.div_unique with 0; lia).
  assert (D4 : forall p, (2 * Z.pos p) mod 2 = 0)
    by (intros p; symmetry; apply Z.mod_unique with (Z.pos p); lia).
  destruct q as [|[q|q|]|q]; cbn [shr_1 shr_m shr_r shr_s]; try lia.
  - split; [reflexivity|]. split; [lia|]. intros _.
    rewrite Z.mod_0_l by lia. rewrite Z.mul_0_r, Z.add_0_r.
    split.
    + symmetry. apply Z.leb_gt. lia.
    + exact Hs.
  - rewrite Pos2Z.inj_xI, D1, D2.
    split; [reflexivity|]. split; [lia|]. intros _.
    split.
    + symmetry. apply Z.leb_le. lia.
    + rewrite Hs. f_equal. f_equal. lia.
  - rewrite Pos2Z.inj_xO, D3, D4.
    split; [reflexivity|]. split; [lia|]. intros _.
    rewrite Z.mul_0_r, Z.add_0_r.
    split.
    + symmetry. apply Z.leb_gt. lia.
    + exact Hs.
  - split; [reflexivity|]. split; [lia|]. intros _.
    replace (1 mod 2) with 1 by reflexivity.
    split.
    + symmetry. apply Z.leb_le. lia.
    + rewrite Hs. f_equal. f_equal. lia.
Qed.

Lemma iter_shr_1_shifted M n :
  0 <= M ->
  shifted M (Z.of_nat n) (Nat.iter n shr_1 {| shr_m := M; shr_r := false; shr_s := false |}).
Proof.
  intros HM. induction n as [|n IH].
  - simpl. unfold shifted. simpl. rewrite Z.div_1_r. repeat split; lia.
  - rewrite Nat2Z.inj_succ. unfold Z.succ. simpl Nat.iter.
    apply shr_1_shifted; [lia|lia|exact IH].
Qed.

(** Shifting an exact mantissa right and rounding it to nearest even is
    [rne]. *)
Lemma shr_round M e p :
  0 <= M ->
  let '(mrs, e') := shr {| shr_m := M; shr_r := false; shr_s := false |} e (Zpos p) in
  round_nearest_even (shr_m mrs) (loc_of_shr_record mrs) = rne M (Zpos p)
  /\ e' = e + Zpos p.
Proof.
  intros HM. cbn [shr]. split; [|reflexivity].
  rewrite iter_pos_nat.
  assert (S := iter_shr_1_shifted M (Pos.to_nat p) HM).
  rewrite positive_nat_Z in S.
  destruct (Nat.iter (Pos.to_nat p) shr_1 _) as [m r s].
  destruct S as (Hm & _ & Hpos). cbn [shr_m shr_r shr_s] in *.
  destruct Hpos as [Hr Hs]; [lia|].
  assert (P := pow2_pos (Zpos p - 1) ltac:(lia)).
  assert (Hb := Z.mod_pos_bound M (2 ^ Zpos p) (pow2_pos (Zpos p) ltac:(lia))).
  unfold rne. subst m.
  destruct (Z.leb_spec (2 ^ (Z.pos p - 1)) (M mod 2 ^ Z.pos p)) as [L|L]; subst r.
  - destruct (Z.ltb_spec (M mod 2 ^ Z.pos p) (2 ^ (Z.pos p - 1))); [lia|].
    destruct (Z.eqb_spec (M mod 2 ^ Z.pos p - 2 ^ (Z.pos p - 1)) 0) as [E|E]; subst s;
      cbn [negb loc_of_shr_record round_nearest_even].
    + destruct (Z.ltb_spec (2 ^ (Z.pos p - 1)) (M mod 2 ^ Z.pos p)); [lia|]. reflexivity.
    + destruct (Z.ltb_spec (2 ^ (Z.pos p - 1)) (M mod 2 ^ Z.pos p)); [|lia]. reflexivity.
  - destruct (Z.ltb_spec (M mod 2 ^ Z.pos p) (2 ^ (Z.pos p - 1))); [|lia].
    destruct (Z.eqb_spec (M mod 2 ^ Z.pos p) 0) as [E|E]; subst s;
      cbn [negb loc_of_shr_record round_nearest_even]; reflexivity.
Qed.

(** [rne] is one of the two neighbours, within half a unit, and exact on
    multiples of [2^n]. *)
Lemma rne_bounds M n :
  0 <= M -> 0 < n ->
  M / 2 ^ n <= rne M n <= M / 2 ^ n + 1 /\
  2 * Z.abs (rne M n * 2 ^ n - M) <= 2 ^ n /\
  (M mod 2 ^ n = 0 -> rne M n = M / 2 ^ n).
Proof.
  intros HM Hn. unfold rne.
  assert (P := pow2_pos (n - 1) ltac:(lia)).
  assert (E : 2 ^ n = 2 * 2 ^ (n - 1)).
  { replace n with (n - 1 + 1) at 1 by lia. apply pow2_succ. lia. }
  assert (Hb := Z.mod_pos_bound M (2 ^ n) ltac:(lia)).
  assert (D := Z.div_mod M (2 ^ n) ltac:(lia)).
  remember (M / 2 ^ n) as q. remember (M mod 2 ^ n) as r. remember (2 ^ (n - 1)) as h.
  destruct (Z.ltb_spec r h); [|destruct (Z.ltb_spec h r); [|destruct (Z.even q)]];
    (split; [lia|split; [nia|intros; lia]]).
Qed.

(** Rounding a mantissa that is [n] bits too long, in the normal range. *)
Lemma binary_round_aux_normal s M e n :
  0 < n ->
  2 ^ (52 + n) <= Zpos M < 2 ^ (53 + n) ->
  -1074 <= e + n <= 970 ->
  binary_round_aux prec emax s (Zpos M) e loc_Exact =
    if rne (Zpos M) n <? 2 ^ 53
    then S754_finite s (Z.to_pos (rne (Zpos M) n)) (e + n)
    else S754_finite s (Z.to_pos (2 ^ 52)) (e + n + 1).
Proof.
  intros Hn HM He.
  assert (Hd : Zpos (digits2_pos M) = 53 + n).
  { apply digits2_pos_unique; [|lia]. replace (53 + n - 1) with (52 + n) by lia. exact HM. }
  unfold binary_round_aux, shr_fexp. cbn [Zdigits2 shr_record_of_loc].
  rewrite Hd.
  replace (fexp prec emax (53 + n + e) - e) with n
    by (unfold fexp, SpecFloat.emin, prec, emax; lia).
  destruct n as [|p|p]; try lia.
  assert (R := shr_round (Zpos M) e p ltac:(lia)).
  destruct (shr _ e (Z.pos p)) as [mrs e'].
  destruct R as [R ->]. rewrite R. clear R mrs.
  assert (B := rne_bounds (Zpos M) (Zpos p) ltac:(lia) ltac:(lia)).
  destruct B as (B1 & _ & _).
  assert (Q : 2 ^ 52 <= Zpos M / 2 ^ Zpos p < 2 ^ 53).
  { assert (P := pow2_pos (Zpos p) ltac:(lia)).
    split.
    - apply Z.div_le_lower_bound; [lia|]. rewrite <- Z.pow_add_r by lia.
      replace (Zpos p + 52) with (52 + Zpos p) by lia. lia.
    - apply Z.div_lt_upper_bound; [lia|]. rewrite <- Z.pow_add_r by lia.
      replace (Zpos p + 53) with (53 + Zpos p) by lia. lia. }
  remember (rne (Zpos M) (Zpos p)) as q' eqn:Eq'.
  destruct (Z.ltb_spec q' (2 ^ 53)) as [L|L].
  - destruct q' as [|q'|q']; try lia.
    assert (Hd' : Zpos (digits2_pos q') = 53)
      by (apply digits2_pos_unique; [change (53 - 1) with 52|]; lia).
    cbn [Zdigits2]. rewrite Hd'.
    replace (fexp prec emax (53 + (e + Z.pos p)) - (e + Z.pos p)) with 0
      by (unfold fexp, SpecFloat.emin, prec, emax; lia).
    cbn [shr shr_m]. cbn [Z.to_pos].
    replace (e + Z.pos p <=? emax - prec) with true
      by (symmetry; apply Z.leb_le; unfold emax, prec; lia).
    reflexivity.
  - assert (q' = 2 ^ 53) by lia. subst q'. rewrite H.
    change (Zdigits2 (2 ^ 53)) with 54.
    replace (fexp prec emax (54 + (e + Z.pos p)) - (e + Z.pos p)) with 1
      by (unfold fexp, SpecFloat.emin, prec, emax; lia).
    cbn [shr iter_pos]. change (shr_m (shr_1 _)) with (2 ^ 52).
    change (2 ^ 52) with (Zpos (Z.to_pos (2 ^ 52))) at 1. cbv iota beta.
    replace (e + Z.pos p + 1 <=? emax - prec) with true
      by (symmetry; apply Z.leb_le; unfold emax, prec; lia).
    reflexivity.
Qed.

(** A 53-bit mantissa is left as it is. *)
Lemma binary_round_aux_canonical s m e :
  2 ^ 52 <= Zpos m < 2 ^ 53 -> -1074 <= e <= 971 ->
  binary_round_aux prec emax s (Zpos m) e loc_Exact = S754_finite s m e.
Proof.
  intros Hm He.
  assert (Hd : Zpos (digits2_pos m) = 53)
    by (apply digits2_pos_unique; [change (53 - 1) with 52|]; lia).
  unfold binary_round_aux, shr_fexp. cbn [Zdigits2 shr_record_of_loc]. rewrite Hd.
  replace (fexp prec emax (53 + e) - e) with 0
    by (unfold fexp, SpecFloat.emin, prec, emax; lia).
  cbn [shr shr_m loc_of_shr_record shr_r shr_s round_nearest_even Zdigits2].
  rewrite Hd.
  replace (fexp prec emax (53 + e) - e) with 0
    by (unfold fexp, SpecFloat.emin, prec, emax; lia).
  cbn [shr shr_m].
  replace (e <=? emax - prec) with true
    by (symmetry; apply Z.leb_le; unfold emax, prec; lia).
  reflexivity.
Qed.

Lemma iter_xO m d : Zpos (Pos.iter xO m d) = Zpos m * 2 ^ Zpos d.
Proof.
  change (Pos.iter xO m d) with (shift_pos d m).
  rewrite shift_pos_correct. rewrite Zpower_pos_nat, Zpower_nat_Z, positive_nat_Z. lia.
Qed.

(** A dyadic value [m * 2^e] that some normal binary64 number [mc * 2^ec]
    equals is rounded to that number. *)
Lemma binary_round_repr s m e mc ec :
  2 ^ 52 <= Zpos mc < 2 ^ 53 -> -1074 <= ec <= 970 ->
  Zpos m * 2 ^ Z.max 0 (e - ec) = Zpos mc * 2 ^ Z.max 0 (ec - e) ->
  binary_round prec emax s m e = S754_finite s mc ec.
Proof.
  intros Hmc Hec Hv. unfold binary_round.
  destruct (Z.compare_spec e ec) as [E|L|G].
  - subst ec. rewrite Z.sub_diag in Hv. cbn in Hv.
    assert (m = mc) by lia. subst m.
    assert (Hd : Zpos (digits2_pos mc) = 53)
      by (apply digits2_pos_unique; [change (53 - 1) with 52|]; lia).
    rewrite Hd.
    replace (fexp prec emax (53 + e)) with e
      by (unfold fexp, SpecFloat.emin, prec, emax; lia).
    unfold shl_align. rewrite Z.sub_diag.
    apply binary_round_aux_canonical; lia.
  - rewrite (Z.max_l 0 (e - ec)) in Hv by lia.
    rewrite (Z.max_r 0 (ec - e)) in Hv by lia.
    rewrite Z.pow_0_r, Z.mul_1_r in Hv.
    set (k := ec - e) in *.
    assert (Pk := pow2_pos k ltac:(lia)).
    assert (Hd : Zpos (digits2_pos m) = 53 + k).
    { apply digits2_pos_unique; [|lia]. rewrite Hv.
      replace (53 + k - 1) with (52 + k) by lia.
      rewrite !Z.pow_add_r by lia. nia. }
    rewrite Hd.
    replace (fexp prec emax (53 + k + e)) with (e + k)
      by (unfold fexp, SpecFloat.emin, prec, emax; lia).
    unfold shl_align. replace (e + k - e) with k by lia.
    destruct k as [|p|p] eqn:Ek; try lia.
    rewrite (binary_round_aux_normal s m e (Zpos p)); try lia.
    + assert (R : rne (Zpos m) (Zpos p) = Zpos mc).
      { destruct (rne_bounds (Zpos m) (Zpos p)) as (_ & _ & R); try lia.
        rewrite R; rewrite Hv.
        - apply Z.div_mul; lia.
        - apply Z.mod_mul; lia. }
      rewrite R.
      destruct (Z.ltb_spec (Zpos mc) (2 ^ 53)); [|lia].
      cbn [Z.to_pos]. f_equal. lia.
    + rewrite Hv. rewrite !Z.pow_add_r by lia. nia.
  - rewrite (Z.max_r 0 (e - ec)) in Hv by lia.
    rewrite (Z.max_l 0 (ec - e)) in Hv by lia.
    rewrite Z.pow_0_r, Z.mul_1_r in Hv.
    set (j := e - ec) in *.
    assert (Pj := pow2_pos j ltac:(lia)).
    assert (Hd : Zpos (digits2_pos m) = 53 - j).
    { assert (j <= 52).
      { destruct (Z.le_gt_cases j 52); [assumption|].
        assert (2 ^ 53 <= 2 ^ j) by (apply Z.pow_le_mono_r; lia). nia. }
      apply digits2_pos_unique; [|lia].
      assert (2 ^ 52 = 2 ^ (53 - j - 1) * 2 ^ j)
        by (rewrite <- Z.pow_add_r by lia; f_equal; lia).
      assert (2 ^ 53 = 2 ^ (53 - j) * 2 ^ j)
        by (rewrite <- Z.pow_add_r by lia; f_equal; lia).
      assert (0 < 2 ^ (53 - j - 1)) by (apply pow2_pos; lia).
      assert (0 < 2 ^ (53 - j)) by (apply pow2_pos; lia).
      nia. }
    rewrite Hd.
    replace (fexp prec emax (53 - j + e)) with ec
      by (unfold fexp, SpecFloat.emin, prec, emax; lia).
    unfold shl_align. replace (ec - e) with (- j) by lia.
    destruct j as [|p|p] eqn:Ej; try lia.
    cbn [Z.opp].
    assert (Pos.iter xO m p = mc).
    { apply Pos2Z.inj. rewrite iter_xO. exact Hv. }
    rewrite H. apply binary_round_aux_canonical; lia.
Qed.

Lemma mant_bounds z : 0 < z < 2 ^ 53 -> 2 ^ 52 <= mant z < 2 ^ 53 /\ -52 <= expo z <= 0.
Proof.
  intros Hz. unfold mant, expo.
  assert (L := Z.log2_spec z ltac:(lia)).
  assert (0 <= Z.log2 z) by apply Z.log2_nonneg.
  assert (Z.log2 z < 53) by (apply Z.log2_lt_pow2; lia).
  assert (P := pow2_pos (52 - Z.log2 z) ltac:(lia)).
  assert (E : 2 ^ 52 = 2 ^ Z.log2 z * 2 ^ (52 - Z.log2 z))
    by (rewrite <- Z.pow_add_r by lia; f_equal; lia).
  assert (E' : 2 ^ 53 = 2 ^ Z.succ (Z.log2 z) * 2 ^ (52 - Z.log2 z))
    by (rewrite <- Z.pow_add_r by lia; f_equal; lia).
  split; [|lia]. rewrite E at 1. rewrite E'. nia.
Qed.

Lemma of_Z_pos z :
  0 < z < 2 ^ 53 -> of_Z z = S754_finite false (Z.to_pos (mant z)) (expo z).
Proof.
  intros Hz. destruct (mant_bounds z Hz) as [Hm He].
  unfold of_Z, binary_normalize. destruct z as [|p|p]; try lia.
  apply binary_round_repr.
  - rewrite Z2Pos.id by lia. exact Hm.
  - lia.
  - rewrite Z2Pos.id by lia.
    rewrite (Z.max_l 0 (expo (Zpos p) - 0)) by lia.
    rewrite (Z.max_r 0 (0 - expo (Zpos p))) by lia.
    unfold mant, expo. rewrite Z.pow_0_r, Z.mul_1_r. f_equal. f_equal. lia.
Qed.

Lemma of_Z_0 : of_Z 0 = S754_zero false.
Proof. reflexivity. Qed.

Lemma mant_expo z : 0 < z < 2 ^ 53 -> mant z = z * 2 ^ (- expo z).
Proof. intros. unfold mant, expo. f_equal. f_equal. lia. Qed.

Lemma to_Z_of_Z z : 0 <= z < 2 ^ 53 -> to_Z (of_Z z) = Some z.
Proof.
  intros Hz. destruct (Z.eq_dec z 0) as [->|Hnz]; [reflexivity|].
  rewrite of_Z_pos by lia.
  destruct (mant_bounds z ltac:(lia)) as [Hm He].
  assert (E := mant_expo z ltac:(lia)).
  assert (P := pow2_pos (- expo z) ltac:(lia)).
  unfold to_Z. rewrite Z2Pos.id by lia.
  destruct (Z.leb_spec 0 (expo z)).
  - assert (expo z = 0) by lia. rewrite H0 in *. cbn in E. cbn [cond_Zopp].
    rewrite Z.pow_0_r. f_equal. lia.
  - rewrite E, Z.mod_mul, Z.eqb_refl by lia. cbn [cond_Zopp].
    rewrite Z.div_mul by lia. reflexivity.
Qed.

Lemma shl_align_fst m e ez :
  ez <= e -> Zpos (fst (shl_align m e ez)) = Zpos m * 2 ^ (e - ez).
Proof.
  intros H. unfold shl_align.
  destruct (ez - e) as [|d|d] eqn:E; cbn [fst].
  - replace (e - ez) with 0 by lia. lia.
  - lia.
  - rewrite iter_xO. f_equal. f_equal. lia.
Qed.

(** Subtraction of integers below 2^53 is exact. *)
Lemma sub_of_Z a b :
  0 <= b <= a -> a < 2 ^ 53 -> sub (of_Z a) (of_Z b) = of_Z (a - b).
Proof.
  intros Hb Ha.
  destruct (Z.eq_dec b 0) as [->|Hb0].
  { rewrite Z.sub_0_r. destruct (Z.eq_dec a 0) as [->|Ha0]; [reflexivity|].
    rewrite of_Z_pos by lia. reflexivity. }
  rewrite (of_Z_pos a), (of_Z_pos b) by lia.
  destruct (mant_bounds a ltac:(lia)) as [Hma Hea].
  destruct (mant_bounds b ltac:(lia)) as [Hmb Heb].
  unfold sub, SFsub. cbn [cond_Zopp].
  set (ez := Z.min (expo a) (expo b)).
  rewrite !shl_align_fst by (unfold ez; lia).
  rewrite !Z2Pos.id by lia.
  rewrite (mant_expo a), (mant_expo b) by lia.
  assert (Ea : a * 2 ^ (- expo a) * 2 ^ (expo a - ez) = a * 2 ^ (- ez)).
  { rewrite <- Z.mul_assoc, <- Z.pow_add_r by (unfold ez; lia). f_equal. f_equal. lia. }
  assert (Eb : b * 2 ^ (- expo b) * 2 ^ (expo b - ez) = b * 2 ^ (- ez)).
  { rewrite <- Z.mul_assoc, <- Z.pow_add_r by (unfold ez; lia). f_equal. f_equal. lia. }
  rewrite Ea, Eb, <- Z.mul_sub_distr_r.
  assert (Pz := pow2_pos (- ez) ltac:(unfold ez; lia)).
  destruct (Z.eq_dec a b) as [->|Hab].
  { rewrite Z.sub_diag. reflexivity. }
  set (c := a - b) in *.
  assert (Hc : 0 < c < 2 ^ 53) by (unfold c; lia).
  destruct (mant_bounds c Hc) as [Hmc Hec].
  rewrite (of_Z_pos c) by exact Hc.
  unfold binary_normalize.
  destruct (c * 2 ^ (- ez)) as [|w|w] eqn:Ew; try nia.
  apply binary_round_repr.
  - rewrite Z2Pos.id by lia. exact Hmc.
  - lia.
  - rewrite Z2Pos.id by lia. rewrite <- Ew, (mant_expo c) by exact Hc.
    destruct (Z.le_ge_cases (expo c) ez).
    + rewrite (Z.max_r 0 (ez - expo c)), (Z.max_l 0 (expo c - ez)) by lia.
      rewrite Z.pow_0_r, Z.mul_1_r, <- Z.mul_assoc, <- Z.pow_add_r by (unfold ez; lia).
      f_equal. f_equal. lia.
    + rewrite (Z.max_l 0 (ez - expo c)), (Z.max_r 0 (expo c - ez)) by lia.
      rewrite Z.pow_0_r, Z.mul_1_r, <- Z.mul_assoc, <- Z.pow_add_r by (unfold ez; lia).
      f_equal. f_equal. lia.
Qed.

Lemma Math_floor_finite m e :
  2 ^ 52 <= Zpos m < 2 ^ 53 -> -1074 <= e <= 0 ->
  Math_floor (S754_finite false m e) = of_Z (Zpos m / 2 ^ (- e)).
Proof.
  intros Hm He. unfold Math_floor.
  destruct (Z.leb_spec 0 e) as [L|L].
  - assert (e = 0) by lia. subst e. cbn [Z.opp]. rewrite Z.pow_0_r, Z.div_1_r.
    rewrite of_Z_pos by lia.
    assert (Z.log2 (Zpos m) = 52)
      by (apply Z.log2_unique; [lia|]; change (Z.succ 52) with 53; lia).
    unfold mant, expo. rewrite H. cbn. rewrite Pos.mul_1_r. reflexivity.
  - reflexivity.
Qed.

(** The payout [Math.floor(uv * c)] for an integral [uv] below 2^53 and a
    binary64 constant [c = mc * 2^ec] with [c <= 1/2]. *)
Lemma floor_mul_of_Z uv mc ec :
  0 <= uv < 2 ^ 53 ->
  2 ^ 52 <= Zpos mc < 2 ^ 53 -> -1074 <= ec ->
  2 * Zpos mc <= 2 ^ (- ec) ->
  exists P,
    Math_floor (mul (of_Z uv) (S754_finite false mc ec)) = of_Z P /\
    0 <= P /\
    (forall N, 2 ^ 54 * (N * 2 ^ (- ec) - uv * Zpos mc) <= uv * Zpos mc -> N <= P) /\
    (forall N, uv * Zpos mc * (2 ^ 53 + 1) < 2 ^ 53 * (N + 1) * 2 ^ (- ec) -> P <= N).
Proof.
  intros Huv Hmc Hec Hc.
  assert (Hec' : ec < 0).
  { destruct (Z.le_gt_cases 0 ec); [|assumption].
    assert (2 ^ (- ec) <= 1); [|lia].
    destruct (Z.eq_dec ec 0) as [->|]; [cbn; lia|].
    rewrite Z.pow_neg_r by lia. lia. }
  assert (PC := pow2_pos (- ec) ltac:(lia)).
  destruct (Z.eq_dec uv 0) as [->|Hnz].
  { exists 0. split; [reflexivity|]. split; [lia|]. split; intros N H; nia. }
  destruct (mant_bounds uv ltac:(lia)) as [Hmu Heu].
  rewrite of_Z_pos by lia.
  set (mu := mant uv) in *. set (eu := expo uv) in *.
  assert (PA := pow2_pos (- eu) ltac:(lia)).
  assert (Emu : mu = uv * 2 ^ (- eu)).
  { unfold mu, eu, mant, expo. f_equal. f_equal. lia. }
  unfold mul, SFmul. cbn [xorb].
  set (M := Zpos (Z.to_pos mu * mc)).
  assert (EM : M = mu * Zpos mc).
  { unfold M. rewrite Pos2Z.inj_mul, Z2Pos.id by lia. reflexivity. }
  assert (HM : 2 ^ 104 <= M < 2 ^ 106).
  { rewrite EM. change (2 ^ 104) with (2 ^ 52 * 2 ^ 52).
    change (2 ^ 106) with (2 ^ 53 * 2 ^ 53). nia. }
  assert (exists n, (n = 52 \/ n = 53) /\ 2 ^ (52 + n) <= M < 2 ^ (53 + n)) as (n & Hn & HMn).
  { destruct (Z.lt_ge_cases M (2 ^ 105)).
    - exists 52. split; [auto|]. change (52 + 52) with 104. change (53 + 52) with 105. lia.
    - exists 53. split; [auto|]. change (52 + 53) with 105. change (53 + 53) with 106. lia. }
  set (e := eu + ec) in *.
  (* the product stays below 2^52, so the rounded exponent is negative *)
  assert (Hen : n + ec <= -1).
  { assert (2 ^ (52 + n) < 2 ^ (52 - ec)).
    { apply Z.le_lt_trans with M; [lia|]. rewrite EM.
      replace (52 - ec) with (53 + (- ec - 1)) by lia.
      rewrite (Z.pow_add_r 2 53) by lia.
      assert (2 * 2 ^ (- ec - 1) = 2 ^ (- ec)).
      { rewrite <- pow2_succ by lia. f_equal. lia. }
      assert (0 < 2 ^ (- ec - 1)) by (apply pow2_pos; lia).
      nia. }
    apply Z.pow_lt_mono_r_iff in H; lia. }
  set (K := 2 ^ (- (e + n))).
  assert (PK := pow2_pos (- (e + n)) ltac:(unfold e; lia)). fold K in PK.
  assert (Pn := pow2_pos n ltac:(lia)).
  assert (ED : 2 ^ (- eu) * 2 ^ (- ec) = K * 2 ^ n).
  { unfold K. rewrite <- !Z.pow_add_r by (unfold e; lia). f_equal. unfold e. lia. }
  destruct (rne_bounds M n ltac:(lia) ltac:(lia)) as (B1 & B2 & _).
  assert (Q : 2 ^ 52 <= M / 2 ^ n).
  { apply Z.div_le_lower_bound; [lia|]. rewrite <- Z.pow_add_r by lia.
    replace (n + 52) with (52 + n) by lia. lia. }
  set (V := rne M n) in *.
  exists (V / K).
  assert (Hn1 : 2 ^ n = 2 * 2 ^ (n - 1)).
  { rewrite <- pow2_succ by lia. f_equal. lia. }
  assert (Pn1 := pow2_pos (n - 1) ltac:(lia)).
  assert (H52 : 2 ^ (52 + n) = 2 ^ 53 * 2 ^ (n - 1)).
  { rewrite <- Z.pow_add_r by lia. f_equal. lia. }
  assert (H53 : 2 ^ (53 + n) = 2 ^ 54 * 2 ^ (n - 1)).
  { rewrite <- Z.pow_add_r by lia. f_equal. lia. }
  split; [|split; [|split]].
  - unfold M. fold (Z.to_pos mu * mc)%positive.
    rewrite (binary_round_aux_normal false (Z.to_pos mu * mc) e n);
      [|lia|exact HMn|unfold e; lia].
    fold M. fold V.
    destruct (Z.ltb_spec V (2 ^ 53)) as [L|L].
    + rewrite Math_floor_finite.
      * rewrite Z2Pos.id by lia. reflexivity.
      * rewrite Z2Pos.id by lia. lia.
      * unfold e. lia.
    + assert (HV : V = 2 ^ 53).
      { assert (M / 2 ^ n < 2 ^ 53).
        { apply Z.div_lt_upper_bound; [lia|]. rewrite <- Z.pow_add_r by lia.
          replace (n + 53) with (53 + n) by lia. lia. }
        lia. }
      rewrite Math_floor_finite.
      * f_equal. rewrite Z2Pos.id by (apply pow2_pos; lia). rewrite HV.
        unfold K. replace (- (e + n)) with (- (e + n + 1) + 1) by lia.
        rewrite pow2_succ by (unfold e; lia).
        change (2 ^ 53) with (2 ^ 52 * 2).
        rewrite (Z.mul_comm 2 (2 ^ _)).
        assert (0 < 2 ^ (- (e + n + 1))) by (apply pow2_pos; unfold e; lia).
        rewrite Z.div_mul_cancel_r by lia. reflexivity.
      * rewrite Z2Pos.id by (apply pow2_pos; lia). split; [lia|].
        apply Z.pow_lt_mono_r; lia.
      * unfold e. lia.
  - apply Z.div_pos; lia.
  - intros N HN. apply Z.div_le_lower_bound; [lia|].
    (* scale the hypothesis by 2^(-eu) *)
    assert (S1 : 2 ^ 54 * (N * (K * 2 ^ n) - M) <= M).
    { rewrite <- ED, EM, Emu.
      replace (2 ^ 54 * (N * (2 ^ (- eu) * 2 ^ (- ec)) - uv * 2 ^ (- eu) * Z.pos mc))
        with (2 ^ (- eu) * (2 ^ 54 * (N * 2 ^ (- ec) - uv * Z.pos mc))) by ring.
      replace (uv * 2 ^ (- eu) * Z.pos mc) with (2 ^ (- eu) * (uv * Z.pos mc)) by ring.
      apply Z.mul_le_mono_nonneg_l; lia. }
    assert (S2 : N * (K * 2 ^ n) - M < 2 ^ (n - 1)).
    { apply (Z.mul_lt_mono_pos_l (2 ^ 54)); [apply pow2_pos; lia|]. lia. }
    assert (S3 : (K * N - V) * 2 ^ n < 1 * 2 ^ n) by lia.
    apply Z.mul_lt_mono_pos_r in S3; lia.
  - intros N HN. apply Z.lt_succ_r. apply Z.div_lt_upper_bound; [lia|].
    assert (S1 : M * (2 ^ 53 + 1) < 2 ^ 53 * (N + 1) * (K * 2 ^ n)).
    { rewrite <- ED, EM, Emu.
      replace (uv * 2 ^ (- eu) * Z.pos mc * (2 ^ 53 + 1))
        with (2 ^ (- eu) * (uv * Z.pos mc * (2 ^ 53 + 1))) by ring.
      replace (2 ^ 53 * (N + 1) * (2 ^ (- eu) * 2 ^ (- ec)))
        with (2 ^ (- eu) * (2 ^ 53 * (N + 1) * 2 ^ (- ec))) by ring.
      apply Z.mul_lt_mono_pos_l; lia. }
    assert (S2 : M + 2 ^ (n - 1) < (N + 1) * (K * 2 ^ n)).
    { apply (Z.mul_lt_mono_pos_l (2 ^ 53)); [apply pow2_pos; lia|]. lia. }
    assert (S3 : V * 2 ^ n < (K * Z.succ N) * 2 ^ n) by lia.
    apply Z.mul_lt_mono_pos_r in S3; lia.
Qed.

Lemma to_Z_finite s m e z :
  to_Z (S754_finite s m e) = Some z ->
  (0 <= e /\ z = cond_Zopp s (Zpos m * 2 ^ e)) \/
  (e < 0 /\ z = cond_Zopp s (Zpos m / 2 ^ (- e)) /\ Zpos m = Zpos m / 2 ^ (- e) * 2 ^ (- e)).
Proof.
  unfold to_Z. destruct (Z.leb_spec 0 e) as [L|L].
  - intros [= <-]. left. split; [lia|reflexivity].
  - destruct (Z.eqb_spec (Zpos m mod 2 ^ (- e)) 0) as [E|E]; [|discriminate].
    intros [= <-]. right. split; [lia|]. split; [reflexivity|].
    assert (P := pow2_pos (- e) ltac:(lia)).
    assert (D := Z.div_mod (Zpos m) (2 ^ (- e)) ltac:(lia)). lia.
Qed.

Lemma valid_finite s m e :
  valid_binary prec emax (S754_finite s m e) = true ->
  Zpos m < 2 ^ 53 /\ (-1074 < e -> 2 ^ 52 <= Zpos m) /\ -1074 <= e.
Proof.
  cbn [valid_binary]. unfold bounded, canonical_mantissa.
  intros H. apply andb_true_iff in H. destruct H as [H _].
  apply Z.eqb_eq in H. unfold fexp, SpecFloat.emin, prec, emax in H.
  assert (B := digits2_pos_bounds m).
  set (d := Zpos (digits2_pos m)) in *.
  assert (d <= 53) by lia.
  split; [|split].
  - apply Z.lt_le_trans with (2 ^ d); [lia|]. apply Z.pow_le_mono_r; lia.
  - intros He. assert (d = 53) by lia. rewrite H1 in B. exact (proj1 B).
  - lia.
Qed.

(** [x >= k] on numbers agrees with the order of the integers they stand for. *)
Lemma geb_of_Z x z k :
  valid_binary prec emax x = true -> to_Z x = Some z -> 0 < k < 2 ^ 53 ->
  geb x (of_Z k) = (k <=? z).
Proof.
  intros Hv Hz Hk.
  rewrite of_Z_pos by exact Hk.
  destruct (mant_bounds k Hk) as [Hmk Hek].
  assert (Ek := mant_expo k Hk).
  set (mk := mant k) in *. set (ek := expo k) in *.
  assert (Pk := pow2_pos (- ek) ltac:(lia)).
  unfold geb, SFleb.
  destruct x as [s| s | |s m e]; try discriminate.
  - (* zero *) injection Hz as <-. cbn. symmetry. apply Z.leb_gt. lia.
  - destruct (valid_finite _ _ _ Hv) as (Vm & Vn & Ve).
    destruct s.
    + (* negative *)
      cbn [SFcompare]. symmetry. apply Z.leb_gt.
      destruct (to_Z_finite _ _ _ _ Hz) as [[He ->]|(He & -> & Em)]; cbn [cond_Zopp].
      * assert (0 < 2 ^ e) by (apply pow2_pos; lia). nia.
      * assert (0 <= Zpos m / 2 ^ (- e)) by (apply Z.div_pos; [lia|apply pow2_pos; lia]). lia.
    + cbn [SFcompare]. rewrite Pos.compare_cont_spec. cbn [Pos.switch_Eq].
      replace (Pos.compare (Z.to_pos mk) m) with (mk ?= Zpos m)
        by (rewrite <- (Z2Pos.id mk) at 1 by lia; reflexivity).
      destruct (Z.compare_spec ek e) as [E|L|G].
      * (* same exponent: compare the mantissas *)
        subst e.
        assert (Em : Zpos m = z * 2 ^ (- ek)).
        { destruct (to_Z_finite _ _ _ _ Hz) as [[He ->]|(He & -> & Em)]; cbn [cond_Zopp].
          - replace ek with 0 by lia. cbn. lia.
          - exact Em. }
        destruct (Z.compare_spec mk (Zpos m)); symmetry;
          [apply Z.leb_le|apply Z.leb_le|apply Z.leb_gt]; nia.
      * (* x has the larger exponent *)
        symmetry. apply Z.leb_le.
        assert (Hm := Vn ltac:(lia)).
        assert (P1 := pow2_pos (e - ek) ltac:(lia)).
        assert (2 <= 2 ^ (e - ek)).
        { change 2 with (2 ^ 1) at 1. apply Z.pow_le_mono_r; lia. }
        assert (Em : z * 2 ^ (- ek) = Zpos m * 2 ^ (e - ek)).
        { destruct (to_Z_finite _ _ _ _ Hz) as [[He ->]|(He & -> & Em)]; cbn [cond_Zopp].
          - rewrite <- Z.mul_assoc, <- Z.pow_add_r by lia. repeat f_equal; lia.
          - rewrite Em at 2. rewrite <- Z.mul_assoc, <- Z.pow_add_r by lia.
            repeat f_equal; lia. }
        change (2 ^ 53) with (2 ^ 52 * 2) in Hmk. nia.
      * (* x has the smaller exponent *)
        symmetry. apply Z.leb_gt.
        assert (P1 := pow2_pos (ek - e) ltac:(lia)).
        assert (2 <= 2 ^ (ek - e)).
        { change 2 with (2 ^ 1) at 1. apply Z.pow_le_mono_r; lia. }
        destruct (to_Z_finite _ _ _ _ Hz) as [[He ->]|(He & -> & Em)]; [lia|]. cbn [cond_Zopp].
        set (q := Zpos m / 2 ^ (- e)) in *.
        assert (Pe := pow2_pos (- e) ltac:(lia)).
        assert (Ek' : k * 2 ^ (- e) = mk * 2 ^ (ek - e)).
        { rewrite Ek, <- Z.mul_assoc, <- Z.pow_add_r by lia. repeat f_equal; lia. }
        change (2 ^ 53) with (2 ^ 52 * 2) in Vm. nia.
Qed.

(** ** The literals of the rules as binary64 numbers *)

Lemma decimal_10 : decimal 10 100 = S754_finite false 7205759403792794 (-56).
Proof. vm_compute. reflexivity. Qed.

Lemma decimal_15 : decimal 15 100 = S754_finite false 5404319552844595 (-55).
Proof. vm_compute. reflexivity. Qed.

Lemma decimal_25 : decimal 25 100 = S754_finite false 4503599627370496 (-54).
Proof. vm_compute. reflexivity. Qed.

Lemma decimal_30 : decimal 30 100 = S754_finite false 5404319552844595 (-54).
Proof. vm_compute. reflexivity. Qed.

Lemma decimal_35 : decimal 35 100 = S754_finite false 6305039478318694 (-54).
Proof. vm_compute. reflexivity. Qed.

Lemma decimal_40 : decimal 40 100 = S754_finite false 7205759403792794 (-54).
Proof. vm_compute. reflexivity. Qed.

Lemma decimal_45 : decimal 45 100 = S754_finite false 8106479329266893 (-54).
Proof. vm_compute. reflexivity. Qed.

Lemma decimal_50 : decimal 50 100 = S754_finite false 4503599627370496 (-53).
Proof. vm_compute. reflexivity. Qed.

(** Each literal is the binary64 number nearest to its fraction: with
    mantissa [m] and exponent [e], [|m / 2^(-e) - n/100| <= 2^(e-1)]. *)
Lemma decimal_nearest :
  Forall (fun '(n, m, e) => decimal n 100 = S754_finite false m e /\
                            2 * Z.abs (100 * Zpos m - n * 2 ^ (- e)) <= 100)
    [ (10, 7205759403792794%positive, -56); (15, 5404319552844595%positive, -55);
      (25, 4503599627370496%positive, -54); (30, 5404319552844595%positive, -54);
      (35, 6305039478318694%positive, -54); (40, 7205759403792794%positive, -54);
      (45, 8106479329266893%positive, -54); (50, 4503599627370496%positive, -53) ].
Proof. repeat constructor; vm_compute; discriminate. Qed.

Ltac literal_pows :=
  change (2 ^ 52) with 4503599627370496 in *;
  change (2 ^ 53) with 9007199254740992 in *;
  change (2 ^ 54) with 18014398509481984 in *;
  change (2 ^ (- -53)) with 9007199254740992 in *;
  change (2 ^ (- -54)) with 18014398509481984 in *;
  change (2 ^ (- -55)) with 36028797018963968 in *;
  change (2 ^ (- -56)) with 72057594037927936 in *.

(** [floor_at uv m e P E P0 Lo Hi]: the payout [P] of [uv] at the constant
    [m * 2^e], with its two bounds. *)
Ltac floor_at uv m e P E P0 Lo Hi :=
  destruct (floor_mul_of_Z uv m e) as (P & E & P0 & Lo & Hi);
  [ lia
  | vm_compute; split; [discriminate | reflexivity]
  | lia
  | vm_compute; discriminate
  | literal_pows ].

Lemma safe_integer uv : 0 <= uv <= MAX_SAFE_INTEGER -> 0 <= uv < 2 ^ 53.
Proof. unfold MAX_SAFE_INTEGER. lia. Qed.

(** Multiplying by 0.50 and by 0.25 is exact. *)
Lemma floor_half uv :
  0 <= uv < 2 ^ 53 ->
  Math_floor (mul (of_Z uv) (decimal 50 100)) = of_Z (percent 50 uv).
Proof.
  intros Huv. rewrite decimal_50.
  floor_at uv 4503599627370496%positive (-53) P E P0 Lo Hi.
  rewrite E. f_equal. unfold percent.
  specialize (Lo (uv * 50 / 100)). specialize (Hi (uv * 50 / 100)).
  Z.div_mod_to_equations. lia.
Qed.

Lemma floor_quarter uv :
  0 <= uv < 2 ^ 53 ->
  Math_floor (mul (of_Z uv) (decimal 25 100)) = of_Z (percent 25 uv).
Proof.
  intros Huv. rewrite decimal_25.
  floor_at uv 4503599627370496%positive (-54) P E P0 Lo Hi.
  rewrite E. f_equal. unfold percent.
  specialize (Lo (uv * 25 / 100)). specialize (Hi (uv * 25 / 100)).
  Z.div_mod_to_equations. lia.
Qed.

(** Multiplying by 0.10 and by 0.15 gives the exact percentage up to 2^52 ... *)
Lemma floor_tenth uv :
  0 <= uv <= 2 ^ 52 ->
  Math_floor (mul (of_Z uv) (decimal 10 100)) = of_Z (percent 10 uv).
Proof.
  intros Huv. rewrite decimal_10.
  floor_at uv 7205759403792794%positive (-56) P E P0 Lo Hi.
  rewrite E. f_equal. unfold percent.
  specialize (Lo (uv * 10 / 100)). specialize (Hi (uv * 10 / 100)).
  Z.div_mod_to_equations. lia.
Qed.

Lemma floor_15_percent uv :
  0 <= uv <= 2 ^ 52 ->
  Math_floor (mul (of_Z uv) (decimal 15 100)) = of_Z (percent 15 uv).
Proof.
  intros Huv. rewrite decimal_15.
  floor_at uv 5404319552844595%positive (-55) P E P0 Lo Hi.
  rewrite E. f_equal. unfold percent.
  specialize (Lo (uv * 15 / 100)). specialize (Hi (uv * 15 / 100)).
  Z.div_mod_to_equations. lia.
Qed.

(** ... and stays within a bound that the retained part covers up to 2^53. *)
Lemma floor_tenth_le uv :
  0 <= uv < 2 ^ 53 ->
  exists P, Math_floor (mul (of_Z uv) (decimal 10 100)) = of_Z P /\
            0 <= P <= (2 * uv + 3) / 20.
Proof.
  intros Huv. rewrite decimal_10.
  floor_at uv 7205759403792794%positive (-56) P E P0 Lo Hi.
  exists P. split; [exact E|]. split; [lia|].
  apply Hi. Z.div_mod_to_equations. lia.
Qed.

Lemma floor_15_percent_le uv :
  0 <= uv < 2 ^ 53 ->
  exists P, Math_floor (mul (of_Z uv) (decimal 15 100)) = of_Z P /\
            0 <= P <= (3 * uv + 2) / 20.
Proof.
  intros Huv. rewrite decimal_15.
  floor_at uv 5404319552844595%positive (-55) P E P0 Lo Hi.
  exists P. split; [exact E|]. split; [lia|].
  apply Hi. Z.div_mod_to_equations. lia.
Qed.

(** The five payouts of the cash-out table for one amount. *)
Lemma payouts uv :
  0 <= uv < 2 ^ 53 ->
  exists P1 P2 P3 P4 P5,
    Math_floor (mul (of_Z uv) (decimal 30 100)) = of_Z P1 /\
    Math_floor (mul (of_Z uv) (decimal 35 100)) = of_Z P2 /\
    Math_floor (mul (of_Z uv) (decimal 40 100)) = of_Z P3 /\
    Math_floor (mul (of_Z uv) (decimal 45 100)) = of_Z P4 /\
    Math_floor (mul (of_Z uv) (decimal 50 100)) = of_Z P5 /\
    0 <= P1 <= P2 /\ P2 <= P3 /\ P3 <= P4 /\ P4 <= P5 /\ P5 <= uv /\
    percent 30 uv - 1 <= P1 <= percent 30 uv + 1 /\
    percent 35 uv - 1 <= P2 <= percent 35 uv + 1 /\
    percent 40 uv - 1 <= P3 <= percent 40 uv + 1 /\
    percent 45 uv - 1 <= P4 <= percent 45 uv + 1 /\
    P5 = percent 50 uv.
Proof.
  intros Huv.
  rewrite decimal_30, decimal_35, decimal_40, decimal_45, decimal_50.
  floor_at uv 5404319552844595%positive (-54) P1 E1 Q1 Lo1 Hi1.
  floor_at uv 6305039478318694%positive (-54) P2 E2 Q2 Lo2 Hi2.
  floor_at uv 7205759403792794%positive (-54) P3 E3 Q3 Lo3 Hi3.
  floor_at uv 8106479329266893%positive (-54) P4 E4 Q4 Lo4 Hi4.
  floor_at uv 4503599627370496%positive (-53) P5 E5 Q5 Lo5 Hi5.
  exists P1, P2, P3, P4, P5. repeat (split; [assumption|]).
  unfold percent.
  assert (P1 <= P2) by (specialize (Hi1 (P1 - 1)); specialize (Lo2 P1); lia).
  assert (P2 <= P3) by (specialize (Hi2 (P2 - 1)); specialize (Lo3 P2); lia).
  assert (P3 <= P4) by (specialize (Hi3 (P3 - 1)); specialize (Lo4 P3); lia).
  assert (P4 <= P5) by (specialize (Hi4 (P4 - 1)); specialize (Lo5 P4); lia).
  assert (P5 <= uv) by (apply Hi5; lia).
  assert (uv * 30 / 100 - 1 <= P1 <= uv * 30 / 100 + 1).
  { specialize (Lo1 (uv * 30 / 100 - 1)). specialize (Hi1 (uv * 30 / 100 + 1)).
    Z.div_mod_to_equations. lia. }
  assert (uv * 35 / 100 - 1 <= P2 <= uv * 35 / 100 + 1).
  { specialize (Lo2 (uv * 35 / 100 - 1)). specialize (Hi2 (uv * 35 / 100 + 1)).
    Z.div_mod_to_equations. lia. }
  assert (uv * 40 / 100 - 1 <= P3 <= uv * 40 / 100 + 1).
  { specialize (Lo3 (uv * 40 / 100 - 1)). specialize (Hi3 (uv * 40 / 100 + 1)).
    Z.div_mod_to_equations. lia. }
  assert (uv * 45 / 100 - 1 <= P4 <= uv * 45 / 100 + 1).
  { specialize (Lo4 (uv * 45 / 100 - 1)). specialize (Hi4 (uv * 45 / 100 + 1)).
    Z.div_mod_to_equations. lia. }
  assert (P5 = uv * 50 / 100).
  { specialize (Lo5 (uv * 50 / 100)). specialize (Hi5 (uv * 50 / 100)).
    Z.div_mod_to_equations. lia. }
  repeat split; lia.
Qed.

(** ** Numbers that compare equal *)

Lemma sameValueZero_finite x s m e :
  sameValueZero x (S754_finite s m e) = true -> x = S754_finite s m e.
Proof.
  unfold sameValueZero, SFeqb.
  destruct x as [s'|s'| |s' m' e']; cbn [SFcompare];
    try (destruct s'; discriminate); try (destruct s; discriminate).
  destruct s', s; try discriminate.
  - destruct (Z.compare_spec e' e) as [->| |]; try discriminate.
    rewrite Pos.compare_cont_spec. cbn [Pos.switch_Eq].
    destruct (Pos.compare_spec m' m) as [->| |]; try discriminate. reflexivity.
  - destruct (Z.compare_spec e' e) as [->| |]; try discriminate.
    rewrite Pos.compare_cont_spec. cbn [Pos.switch_Eq].
    destruct (Pos.compare_spec m' m) as [->| |]; try discriminate. reflexivity.
Qed.

Lemma ladder_finite y :
  In y NFT_FACE_VALUE_LADDER -> exists s m e, y = S754_finite s m e.
Proof.
  intros H. vm_compute in H.
  repeat (destruct H as [<-|H]; [do 3 eexists; reflexivity|]). contradiction.
Qed.

Lemma includes_ladder x :
  includes NFT_FACE_VALUE_LADDER x = true -> In x NFT_FACE_VALUE_LADDER.
Proof.
  unfold includes. intros H. apply existsb_exists in H.
  destruct H as (y & Hy & E).
  destruct (ladder_finite y Hy) as (s & m & e & ->).
  apply sameValueZero_finite in E. subst x. exact Hy.
Qed.

(** C2: on each of the fifteen face values [splitLvUv] returns
    [lv = round(f * 0.10)] and [uv = f - lv], so that [lv + uv = f]; on
    every number that is not in the ladder it throws
    FACE_VALUE_NOT_ALLOWED. *)
Theorem splitLvUv_spec :
  (forall f, In f LADDER_LITERALS ->
     exists l u,
       splitLvUv (of_Z f) = Return {| lv := of_Z l; uv := of_Z u |} /\
       l = round_half_up (f * 10) 100 /\ u = f - l /\ l + u = f) /\
  (forall x : number, ~ In x NFT_FACE_VALUE_LADDER ->
     splitLvUv x = Throw "FACE_VALUE_NOT_ALLOWED").
Proof.
  split.
  - intros f Hf. exists (round_half_up (f * 10) 100), (f - round_half_up (f * 10) 100).
    split; [|split; [reflexivity|split; [reflexivity|lia]]].
    unfold LADDER_LITERALS in Hf. cbn [In] in Hf.
    repeat (destruct Hf as [<-|Hf]; [vm_compute; reflexivity|]). contradiction.
  - intros x Hx. unfold splitLvUv, assertFaceValueAllowed.
    destruct (includes NFT_FACE_VALUE_LADDER x) eqn:E.
    + elim Hx. apply includes_ladder. exact E.
    + reflexivity.
Qed.

Lemma splitLvUv_spec_witness :
  (exists l u,
     splitLvUv (of_Z 1000) = Return {| lv := of_Z l; uv := of_Z u |} /\
     l = round_half_up (1000 * 10) 100 /\ u = 1000 - l /\ l + u = 1000) /\
  splitLvUv (of_Z 1001) = Throw "FACE_VALUE_NOT_ALLOWED".
Proof.
  split.
  - apply (proj1 splitLvUv_spec 1000). simpl. do 2 right. left. reflexivity.
  - apply (proj2 splitLvUv_spec (of_Z 1001)).
    intros H. vm_compute in H.
    repeat (destruct H as [H|H]; [discriminate H|]). exact H.
Defined.

(** C9: each face value of the ladder is a multiple of 10, the product
    [f * 0.10] is already the integer [f / 10], and that is the locked
    value: [Math.round] has nothing to round. *)
Theorem ladder_lv_is_exact_tenth :
  forall f, In f LADDER_LITERALS ->
    f mod 10 = 0 /\
    mul (of_Z f) LV_RATE = of_Z (f / 10) /\
    exists u, splitLvUv (of_Z f) = Return {| lv := of_Z (f / 10); uv := u |}.
Proof.
  intros f Hf. unfold LADDER_LITERALS in Hf. cbn [In] in Hf.
  repeat (destruct Hf as [<-|Hf];
          [split; [reflexivity|split; [vm_compute; reflexivity|
             eexists; vm_compute; reflexivity]]|]).
  contradiction.
Qed.

Lemma ladder_lv_is_exact_tenth_witness :
  380000 mod 10 = 0 /\
  mul (of_Z 380000) LV_RATE = of_Z (380000 / 10) /\
  exists u, splitLvUv (of_Z 380000) = Return {| lv := of_Z (380000 / 10); uv := u |}.
Proof.
  apply (ladder_lv_is_exact_tenth 380000). simpl. do 11 right. left. reflexivity.
Defined.

(** ** The cash-out table *)

Lemma cash_out_row b :
  1 <= b <= 5 ->
  get CASH_OUT_TABLE (of_Z b)
  = Some {| collaboratorUvPct := decimal (collaboratorPct b) 100;
            trebalUvPct := decimal (100 - collaboratorPct b) 100 |}.
Proof.
  intros Hb.
  assert (C : b = 1 \/ b = 2 \/ b = 3 \/ b = 4 \/ b = 5) by lia.
  destruct C as [->|[->|[->|[->| ->]]]]; reflexivity.
Qed.

Lemma cash_out_no_row (b : number) :
  (forall k, 1 <= k <= 5 -> to_Z b <> Some k) -> get CASH_OUT_TABLE b = None.
Proof.
  intros H. unfold CASH_OUT_TABLE. cbn [get].
  destruct (to_Z b) as [z|]; [|reflexivity].
  repeat match goal with
         | |- context [(z =? ?k)%Z] =>
             destruct (Z.eqb_spec z k) as [->|_]; [elim (H k); [lia|reflexivity]|]
         end.
  reflexivity.
Qed.

(** What [cashOutSplit] returns for every batch count of the table: the
    payouts [P b] conserve the amount, stay within one unit of the exact
    percentage, and do not decrease with the batch count. *)
Lemma cashOutSplit_table uv :
  0 <= uv < 2 ^ 53 ->
  exists P : Z -> Z,
    (forall b, 1 <= b <= 5 ->
       cashOutSplit (of_Z b) (of_Z uv)
       = Return {| collaboratorPayout := of_Z (P b);
                   trebalCapture := of_Z (uv - P b) |} /\
       0 <= P b <= uv /\
       percent (collaboratorPct b) uv - 1 <= P b <= percent (collaboratorPct b) uv + 1) /\
    (forall b b', 1 <= b <= b' -> b' <= 5 -> P b <= P b').
Proof.
  intros Huv.
  destruct (payouts uv Huv)
    as (P1 & P2 & P3 & P4 & P5 & E1 & E2 & E3 & E4 & E5 & B).
  exists (fun b => if (b =? 1)%Z then P1 else if (b =? 2)%Z then P2
                   else if (b =? 3)%Z then P3 else if (b =? 4)%Z then P4 else P5).
  split.
  - intros b Hb.
    assert (C : b = 1 \/ b = 2 \/ b = 3 \/ b = 4 \/ b = 5) by lia.
    unfold cashOutSplit. rewrite (cash_out_row b Hb). cbn [collaboratorUvPct].
    destruct C as [->|[->|[->|[->| ->]]]]; cbn [Z.eqb Pos.eqb];
      change (collaboratorPct 1) with 30; change (collaboratorPct 2) with 35;
      change (collaboratorPct 3) with 40; change (collaboratorPct 4) with 45;
      change (collaboratorPct 5) with 50;
      rewrite ?E1, ?E2, ?E3, ?E4, ?E5;
      (rewrite sub_of_Z by lia);
      (split; [reflexivity|]); lia.
  - intros b b' Hb Hb'.
    assert (C : b = 1 \/ b = 2 \/ b = 3 \/ b = 4 \/ b = 5) by lia.
    assert (C' : b' = 1 \/ b' = 2 \/ b' = 3 \/ b' = 4 \/ b' = 5) by lia.
    destruct C as [->|[->|[->|[->| ->]]]];
      destruct C' as [->|[->|[->|[->| ->]]]]; cbn [Z.eqb Pos.eqb]; lia.
Qed.

(** C3: the cash-out of a certificate of face value 380000 (usable value
    342000) at batch count 2 pays the collaborator 119699, one unit less
    than [floor(342000 * 0.35) = 119700]: the binary64 product
    [342000 * 0.35] is just below 119700. *)
Theorem cashOutSplit_2_342000 :
  splitLvUv (of_Z 380000) = Return {| lv := of_Z 38000; uv := of_Z 342000 |} /\
  cashOutSplit (of_Z 2) (of_Z 342000)
  = Return {| collaboratorPayout := of_Z 119699; trebalCapture := of_Z 222301 |} /\
  percent 35 342000 = 119700 /\
  to_Z (mul (of_Z 342000) (decimal 35 100)) = None /\
  SFltb (mul (of_Z 342000) (decimal 35 100)) (of_Z 119700) = true.
Proof. repeat split; vm_compute; reflexivity. Qed.

(** The same cash-out through the server, after a purchase and a gift. *)
Example cashout_380000_batch_2 :
  exists retired,
    fst (nft_cashout (Some bob) "n1" (of_Z 2) dbBobHolds380000)
    = Respond 200
        (OkPayout retired
           {| collaboratorPayout := of_Z 119699; trebalCapture := of_Z 222301 |}).
Proof. eexists. vm_compute. reflexivity. Qed.

(** It is the only one of the 75 cash-outs of a certificate (fifteen face
    values, five batch counts) that is not the exact percentage. *)
Lemma cashOutSplit_on_ladder f b :
  In f LADDER_LITERALS -> 1 <= b <= 5 -> (f, b) <> (380000, 2) ->
  cashOutSplit (of_Z b) (of_Z (f - f / 10))
  = Return {| collaboratorPayout := of_Z (percent (collaboratorPct b) (f - f / 10));
              trebalCapture :=
                of_Z (f - f / 10 - percent (collaboratorPct b) (f - f / 10)) |}.
Proof.
  intros Hf Hb Hne.
  assert (C : b = 1 \/ b = 2 \/ b = 3 \/ b = 4 \/ b = 5) by lia.
  unfold LADDER_LITERALS in Hf. cbn [In] in Hf.
  repeat (destruct Hf as [<-|Hf];
          [destruct C as [->|[->|[->|[->| ->]]]];
           first [vm_compute; reflexivity | elim Hne; reflexivity]|]).
  contradiction.
Qed.

(** What does hold of [cashOutSplit]: it conserves the amount, pays within
    one unit of the exact percentage, and rejects every batch count
    outside 1..5. *)
Lemma cashOutSplit_conserves b uv :
  1 <= b <= 5 -> 0 <= uv <= MAX_SAFE_INTEGER ->
  exists p t,
    cashOutSplit (of_Z b) (of_Z uv)
    = Return {| collaboratorPayout := of_Z p; trebalCapture := of_Z t |} /\
    t = uv - p /\ p + t = uv /\ 0 <= p <= uv /\
    percent (collaboratorPct b) uv - 1 <= p <= percent (collaboratorPct b) uv + 1.
Proof.
  intros Hb Huv. apply safe_integer in Huv.
  destruct (cashOutSplit_table uv Huv) as (P & HP & _).
  destruct (HP b Hb) as (E & B1 & B2).
  exists (P b), (uv - P b). repeat split; try assumption; lia.
Qed.

Lemma cashOutSplit_invalid_batch (b uv : number) :
  (forall k, 1 <= k <= 5 -> to_Z b <> Some k) ->
  cashOutSplit b uv = Throw "INVALID_BATCH_COUNT".
Proof.
  intros H. unfold cashOutSplit. rewrite (cash_out_no_row b H). reflexivity.
Qed.

(** C4: for a fixed amount the collaborator's payout does not decrease
    when the batch count grows from 1 to 5; the rate is 0.30 at batch
    count 1 and 0.50 at batch count 5. *)
Theorem cashOutSplit_payout_monotone :
  (forall uv b1 b2,
     0 <= uv <= MAX_SAFE_INTEGER -> 1 <= b1 <= b2 -> b2 <= 5 ->
     exists r1 r2 p1 p2,
       cashOutSplit (of_Z b1) (of_Z uv) = Return r1 /\
       cashOutSplit (of_Z b2) (of_Z uv) = Return r2 /\
       to_Z (collaboratorPayout r1) = Some p1 /\
       to_Z (collaboratorPayout r2) = Some p2 /\
       p1 <= p2) /\
  option_map collaboratorUvPct (get CASH_OUT_TABLE (of_Z 1)) = Some (decimal 30 100) /\
  option_map collaboratorUvPct (get CASH_OUT_TABLE (of_Z 5)) = Some (decimal 50 100).
Proof.
  split; [|split; reflexivity].
  intros uv b1 b2 Huv Hb1 Hb2. apply safe_integer in Huv.
  destruct (cashOutSplit_table uv Huv) as (P & HP & Hmono).
  destruct (HP b1 ltac:(lia)) as (E1 & B1 & _).
  destruct (HP b2 ltac:(lia)) as (E2 & B2 & _).
  do 2 eexists. exists (P b1), (P b2).
  split; [exact E1|]. split; [exact E2|]. cbn [collaboratorPayout].
  rewrite !to_Z_of_Z by lia.
  split; [reflexivity|]. split; [reflexivity|].
  apply Hmono; lia.
Qed.

Lemma cashOutSplit_payout_monotone_witness :
  exists r1 r2 p1 p2,
    cashOutSplit (of_Z 2) (of_Z 342000) = Return r1 /\
    cashOutSplit (of_Z 3) (of_Z 342000) = Return r2 /\
    to_Z (collaboratorPayout r1) = Some p1 /\
    to_Z (collaboratorPayout r2) = Some p2 /\
    p1 <= p2.
Proof.
  apply (proj1 cashOutSplit_payout_monotone 342000 2 3);
    unfold MAX_SAFE_INTEGER; lia.
Defined.

(** ** The sponsorship split and the internal allocation *)

Lemma sponsorshipSplit_of_Z uv :
  0 <= uv < 2 ^ 53 ->
  sponsorshipSplit (of_Z uv)
  = {| collaborator := of_Z (percent 50 uv);
       seller := of_Z (percent 25 uv);
       retained := of_Z (uv - percent 50 uv - percent 25 uv) |} /\
  0 <= percent 50 uv /\ 0 <= percent 25 uv /\
  0 <= uv - percent 50 uv - percent 25 uv <= uv.
Proof.
  intros Huv.
  assert (B : 0 <= percent 50 uv /\ 0 <= percent 25 uv /\
              percent 50 uv + percent 25 uv <= uv).
  { unfold percent. Z.div_mod_to_equations. lia. }
  split; [|lia].
  unfold sponsorshipSplit.
  rewrite floor_half, floor_quarter by exact Huv.
  rewrite sub_of_Z by lia. rewrite sub_of_Z by lia. reflexivity.
Qed.

(** C5: [sponsorshipSplit] gives the collaborator [floor(uv * 0.50)], the
    seller [floor(uv * 0.25)] and retains the rest, so the three parts add
    up to [uv]. *)
Theorem sponsorshipSplit_spec uv :
  0 <= uv <= MAX_SAFE_INTEGER ->
  exists c s r,
    sponsorshipSplit (of_Z uv)
    = {| collaborator := of_Z c; seller := of_Z s; retained := of_Z r |} /\
    c = percent 50 uv /\ s = percent 25 uv /\ r = uv - c - s /\
    c + s + r = uv /\ 0 <= c /\ 0 <= s /\ 0 <= r.
Proof.
  intros Huv. apply safe_integer in Huv.
  destruct (sponsorshipSplit_of_Z uv Huv) as (E & B).
  exists (percent 50 uv), (percent 25 uv), (uv - percent 50 uv - percent 25 uv).
  split; [exact E|]. repeat split; lia.
Qed.

Lemma sponsorshipSplit_spec_witness :
  exists c s r,
    sponsorshipSplit (of_Z 900)
    = {| collaborator := of_Z c; seller := of_Z s; retained := of_Z r |} /\
    c = percent 50 900 /\ s = percent 25 900 /\ r = 900 - c - s /\
    c + s + r = 900 /\ 0 <= c /\ 0 <= s /\ 0 <= r.
Proof. apply (sponsorshipSplit_spec 900). unfold MAX_SAFE_INTEGER. lia. Defined.

(** C7, as stated, fails for very large amounts: at 6755399441055749 the
    platform fee is one unit above [floor(uv * 0.10)]. *)
Lemma allocation_off_by_one_at_6755399441055749 :
  0 <= 6755399441055749 <= MAX_SAFE_INTEGER /\
  to_Z (platformFee (distributionInternalAllocationFromUv (of_Z 6755399441055749)))
  = Some 675539944105575 /\
  percent 10 6755399441055749 = 675539944105574 /\
  distributionInternalAllocationFromUv (of_Z 6755399441055749)
  <> {| platformFee := of_Z (percent 10 6755399441055749);
        discountPool := of_Z (percent 15 6755399441055749) |}.
Proof.
  split; [unfold MAX_SAFE_INTEGER; lia|].
  split; [vm_compute; reflexivity|].
  split; [vm_compute; reflexivity|].
  vm_compute. discriminate.
Qed.

(** C7, amended: for every amount up to 2^52 the platform fee is
    [floor(uv * 0.10)] and the discount pool [floor(uv * 0.15)], both taken
    from the full usable value: at 900 they are 90 and 135, while the
    retained part is 225, of which they would be 22 and 33. *)
Theorem distributionInternalAllocationFromUv_spec :
  (forall uv,
     0 <= uv <= 2 ^ 52 ->
     distributionInternalAllocationFromUv (of_Z uv)
     = {| platformFee := of_Z (percent 10 uv);
          discountPool := of_Z (percent 15 uv) |}) /\
  distributionInternalAllocationFromUv (of_Z 900)
  = {| platformFee := of_Z 90; discountPool := of_Z 135 |} /\
  retained (sponsorshipSplit (of_Z 900)) = of_Z 225 /\
  percent 10 225 = 22 /\ percent 15 225 = 33.
Proof.
  split; [|repeat split; vm_compute; reflexivity].
  intros uv Huv. unfold distributionInternalAllocationFromUv.
  rewrite floor_tenth, floor_15_percent by exact Huv. reflexivity.
Qed.

Lemma distributionInternalAllocationFromUv_spec_witness :
  distributionInternalAllocationFromUv (of_Z 342000)
  = {| platformFee := of_Z (percent 10 342000);
       discountPool := of_Z (percent 15 342000) |}.
Proof.
  apply (proj1 distributionInternalAllocationFromUv_spec 342000).
  change (2 ^ 52) with 4503599627370496. lia.
Defined.

(** C10: the platform fee and the discount pool, taken from the full
    usable value, together never exceed what [sponsorshipSplit] retains. *)
Theorem allocation_fits_in_retained uv :
  0 <= uv <= MAX_SAFE_INTEGER ->
  exists r fee pool,
    to_Z (retained (sponsorshipSplit (of_Z uv))) = Some r /\
    to_Z (platformFee (distributionInternalAllocationFromUv (of_Z uv))) = Some fee /\
    to_Z (discountPool (distributionInternalAllocationFromUv (of_Z uv))) = Some pool /\
    fee + pool <= r.
Proof.
  intros Huv. apply safe_integer in Huv.
  destruct (sponsorshipSplit_of_Z uv Huv) as (E & B).
  destruct (floor_tenth_le uv Huv) as (fee & Ef & Bf).
  destruct (floor_15_percent_le uv Huv) as (pool & Ep & Bp).
  assert (R : (2 * uv + 3) / 20 + (3 * uv + 2) / 20
              <= uv - percent 50 uv - percent 25 uv).
  { unfold percent. Z.div_mod_to_equations. lia. }
  exists (uv - percent 50 uv - percent 25 uv), fee, pool.
  rewrite E. unfold distributionInternalAllocationFromUv.
  cbn [retained platformFee discountPool]. rewrite Ef, Ep.
  rewrite !to_Z_of_Z by lia.
  repeat split; lia.
Qed.

Lemma allocation_fits_in_retained_witness :
  exists r fee pool,
    to_Z (retained (sponsorshipSplit (of_Z 900))) = Some r /\
    to_Z (platformFee (distributionInternalAllocationFromUv (of_Z 900))) = Some fee /\
    to_Z (discountPool (distributionInternalAllocationFromUv (of_Z 900))) = Some pool /\
    fee + pool <= r.
Proof. apply (allocation_fits_in_retained 900). unfold MAX_SAFE_INTEGER. lia. Defined.

(** ** Seller classes *)

(** C6: [computeSellerClass] is a total function; on every number that
    stands for an integer [sem] it returns the class of the thresholds
    300/150/80/40: A from 300, B in 150..299, C in 80..149, D in 40..79 and
    E below 40.  In particular 300 is A, 79 is D and 39 is E. *)
Theorem computeSellerClass_spec :
  (forall (x : number) (sem : Z),
     valid_binary prec emax x = true -> to_Z x = Some sem ->
     computeSellerClass x = sellerClassByThreshold sem /\
     (300 <= sem -> computeSellerClass x = "A"%string) /\
     (150 <= sem < 300 -> computeSellerClass x = "B"%string) /\
     (80 <= sem < 150 -> computeSellerClass x = "C"%string) /\
     (40 <= sem < 80 -> computeSellerClass x = "D"%string) /\
     (sem < 40 -> computeSellerClass x = "E"%string)) /\
  computeSellerClass (of_Z 300) = "A"%string /\
  computeSellerClass (of_Z 79) = "D"%string /\
  computeSellerClass (of_Z 39) = "E"%string.
Proof.
  split; [|repeat split; vm_compute; reflexivity].
  intros x sem Hv Hz.
  assert (E : computeSellerClass x = sellerClassByThreshold sem).
  { unfold computeSellerClass, sellerClassByThreshold.
    rewrite !(geb_of_Z x sem) by (try assumption; change (2 ^ 53) with 9007199254740992; lia).
    reflexivity. }
  split; [exact E|]. rewrite E. unfold sellerClassByThreshold.
  repeat split; intros H;
    repeat match goal with
           | |- context [(?a <=? sem)%Z] => destruct (Z.leb_spec a sem); try lia
           end; reflexivity.
Qed.

Lemma computeSellerClass_spec_witness :
  computeSellerClass (of_Z 150) = sellerClassByThreshold 150 /\
  computeSellerClass (of_Z 150) = "B"%string.
Proof.
  destruct (proj1 computeSellerClass_spec (of_Z 150) 150) as (E & _ & B & _).
  - vm_compute. reflexivity.
  - vm_compute. reflexivity.
  - split; [exact E|]. apply B. lia.
Defined.

(** ** The certificate handlers *)

Section Handlers.

Variable db : Db.
Variable user : Jwt.t.
Variable nftId : string.
Variable nft : Nft.t.

Hypothesis found : findNft db nftId = Some nft.
Hypothesis owner : Nft.ownerId nft = Jwt.sub user.

Lemma owner_check : negb (String.eqb (Nft.ownerId nft) (Jwt.sub user)) = false.
Proof. rewrite owner, String.eqb_refl. reflexivity. Qed.

(** Stack, cash-out and sponsorship convert reject a RETIRED certificate
    of the caller and change nothing. *)
Lemma retired_rejected :
  Nft.state nft = "RETIRED"%string ->
  has "COLLABORATOR" (Jwt.roles user) = true ->
  nft_stack (Some user) nftId db = (Respond 409 (Error "NFT_RETIRED"), db) /\
  (forall batchCount,
     batchCountSchema batchCount = true ->
     nft_cashout (Some user) nftId batchCount db
     = (Respond 409 (Error "NFT_RETIRED"), db)) /\
  (forall sellerId seller,
     findUser db sellerId = Some seller ->
     has "SELLER" (User.roles seller) = true ->
     nft_sponsorship_convert (Some user) nftId sellerId db
     = (Respond 409 (Error "NFT_RETIRED"), db)).
Proof.
  intros Hst Hrole.
  unfold nft_stack, nft_cashout, nft_sponsorship_convert, auth, requireRole.
  rewrite Hrole, found, owner_check, Hst. cbn [negb String.eqb].
  split; [reflexivity|]. split.
  - intros b Hb. rewrite Hb. reflexivity.
  - intros sellerId s Hs Hr. rewrite Hs, Hr. reflexivity.
Qed.

(** A gift that passes the checks of the handler goes through whatever
    the state of the certificate, RETIRED included, and puts it in state
    GIFT. *)
Lemma gift_whatever_the_state (collaboratorId : string) (target : User.t) :
  has "CUSTOMER" (Jwt.roles user) = true ->
  findUser db collaboratorId = Some target ->
  has "COLLABORATOR" (User.roles target) = true ->
  countActive db collaboratorId < 5 ->
  exists gifted db',
    nft_gift (Some user) nftId collaboratorId db = (Respond 200 (OkNft gifted), db') /\
    Nft.state gifted = "GIFT"%string /\
    Nft.ownerId gifted = collaboratorId /\
    Nft.giftedFromId gifted = Some (Jwt.sub user).
Proof.
  intros Hrole Htarget Hcollab Hcount.
  unfold nft_gift, auth, requireRole, committed, updateNft.
  rewrite Hrole, found, owner_check, Htarget, Hcollab. cbn [negb].
  destruct (Z.leb_spec 5 (countActive db collaboratorId)); [lia|].
  do 2 eexists. split; [reflexivity|]. repeat split.
Qed.

(** C8: when the caller owns the certificate and the target is a
    collaborator who already holds five or more certificates that are not
    RETIRED, the gift is answered 409 COLLABORATOR_NFT_CAP_REACHED and the
    tables are left as they were, so the certificate keeps its owner, its
    state and its giftedFromId. *)
Theorem gift_capacity_exceeded (collaboratorId : string) (target : User.t) :
  has "CUSTOMER" (Jwt.roles user) = true ->
  findUser db collaboratorId = Some target ->
  has "COLLABORATOR" (User.roles target) = true ->
  5 <= countActive db collaboratorId ->
  nft_gift (Some user) nftId collaboratorId db
  = (Respond 409 (Error "COLLABORATOR_NFT_CAP_REACHED"), db) /\
  findNft (snd (nft_gift (Some user) nftId collaboratorId db)) nftId = Some nft.
Proof.
  intros Hrole Htarget Hcollab Hcount.
  assert (E : nft_gift (Some user) nftId collaboratorId db
              = (Respond 409 (Error "COLLABORATOR_NFT_CAP_REACHED"), db)).
  { unfold nft_gift, auth, requireRole.
    rewrite Hrole, found, owner_check, Htarget, Hcollab. cbn [negb].
    destruct (Z.leb_spec 5 (countActive db collaboratorId)); [reflexivity|lia]. }
  rewrite E. split; [reflexivity|exact found].
Qed.

End Handlers.

Lemma gift_capacity_exceeded_witness :
  nft_gift (Some alice) "a1" "bob" dbBobAtCapacity
  = (Respond 409 (Error "COLLABORATOR_NFT_CAP_REACHED"), dbBobAtCapacity) /\
  findNft (snd (nft_gift (Some alice) "a1" "bob" dbBobAtCapacity)) "a1"
  = Some (certificate "a1" "alice" "GIFT").
Proof.
  apply (gift_capacity_exceeded dbBobAtCapacity alice "a1"
           (certificate "a1" "alice" "GIFT") eq_refl eq_refl "bob"
           {| User.id := "bob"; User.roles := ["COLLABORATOR"%string] |});
    [reflexivity | reflexivity | reflexivity | vm_compute; discriminate].
Defined.

(** With five or more active certificates at the target no gift goes
    through, whoever asks. *)
Lemma gift_at_capacity_changes_nothing token nftId collaboratorId db :
  5 <= countActive db collaboratorId ->
  snd (nft_gift token nftId collaboratorId db) = db /\
  forall nft, fst (nft_gift token nftId collaboratorId db) <> Respond 200 (OkNft nft).
Proof.
  intros H. unfold nft_gift, auth, requireRole.
  destruct token as [user|]; [|split; [reflexivity|discriminate]].
  destruct (has "CUSTOMER" (Jwt.roles user)); [|split; [reflexivity|discriminate]].
  cbn [negb].
  destruct (findNft db nftId) as [nft|]; [|split; [reflexivity|discriminate]].
  destruct (negb (String.eqb (Nft.ownerId nft) (Jwt.sub user)));
    [split; [reflexivity|discriminate]|].
  destruct (negb _); [split; [reflexivity|discriminate]|].
  destruct (Z.leb_spec 5 (countActive db collaboratorId)); [|lia].
  split; [reflexivity|discriminate].
Qed.

(** The gift handler never answers NFT_RETIRED. *)
Lemma gift_never_answers_retired token nftId collaboratorId db :
  fst (nft_gift token nftId collaboratorId db) <> Respond 409 (Error "NFT_RETIRED").
Proof.
  unfold nft_gift, auth, requireRole, committed, updateNft.
  destruct token as [user|]; [|discriminate].
  destruct (has "CUSTOMER" (Jwt.roles user)); [|discriminate]. cbn [negb].
  destruct (findNft db nftId) as [nft|]; [|discriminate].
  destruct (negb (String.eqb (Nft.ownerId nft) (Jwt.sub user))); [discriminate|].
  destruct (negb _); [discriminate|].
  destruct (5 <=? countActive db collaboratorId)%Z; discriminate.
Qed.

(** C1: the gift handler does not look at the state.  Dana's certificate
    is RETIRED after her cash-out; her gift of it to Bob is answered 200,
    the certificate is in state GIFT again, owned by Bob, and Bob's
    cash-out of it is paid a second time. *)
Theorem gift_accepts_retired_certificate :
  option_map Nft.state (findNft dbDanaCashedOut "n1") = Some "RETIRED"%string /\
  exists nft db',
    nft_gift (Some dana) "n1" "bob" dbDanaCashedOut = (Respond 200 (OkNft nft), db') /\
    Nft.state nft = "GIFT"%string /\
    Nft.ownerId nft = "bob"%string /\
    Nft.giftedFromId nft = Some "dana"%string /\
    findNft db' "n1" = Some nft /\
    exists retired,
      fst (nft_cashout (Some bob) "n1" (of_Z 1) db')
      = Respond 200
          (OkPayout retired
             {| collaboratorPayout := of_Z 270; trebalCapture := of_Z 630 |}).
Proof.
  split; [vm_compute; reflexivity|].
  do 2 eexists. split; [vm_compute; reflexivity|].
  repeat split. eexists. vm_compute. reflexivity.
Qed.

(** The concrete scenarios listed with the rules. *)

Example splitLvUv_1000 :
  splitLvUv (of_Z 1000) = Return {| lv := of_Z 100; uv := of_Z 900 |}.
Proof. vm_compute. reflexivity. Qed.

Example cashOutSplit_1_900 :
  cashOutSplit (of_Z 1) (of_Z 900)
  = Return {| collaboratorPayout := of_Z 270; trebalCapture := of_Z 630 |}.
Proof. vm_compute. reflexivity. Qed.

Example cashOutSplit_5_900 :
  cashOutSplit (of_Z 5) (of_Z 900)
  = Return {| collaboratorPayout := of_Z 450; trebalCapture := of_Z 450 |}.
Proof. vm_compute. reflexivity. Qed.

Example sponsorshipSplit_900 :
  sponsorshipSplit (of_Z 900)
  = {| collaborator := of_Z 450; seller := of_Z 225; retained := of_Z 225 |}.
Proof. vm_compute. reflexivity. Qed.

Example computeSellerClass_NaN : computeSellerClass S754_nan = "E"%string.
Proof. reflexivity. Qed.

Example assertSellerCanDistribute_E :
  assertSellerCanDistribute (computeSellerClass (of_Z 39))
  = Throw "SELLER_CLASS_E_NOT_PERMITTED".
Proof. vm_compute. reflexivity. Qed.

(** * Further properties of the rules *)

(** [obj[k]] only depends on the integer the key stands for. *)
Lemma get_to_Z {A} (obj : list (Z * A)) (k k' : number) :
  to_Z k = to_Z k' -> get obj k = get obj k'.
Proof.
  intros E. induction obj as [|[i a] rest IH]; cbn [get]; [reflexivity|].
  rewrite E, IH. reflexivity.
Qed.

Lemma cash_out_row_iff (b : number) :
  (exists row, get CASH_OUT_TABLE b = Some row) <->
  (exists k, 1 <= k <= 5 /\ to_Z b = Some k).
Proof.
  split.
  - intros [row H]. destruct (to_Z b) as [z|] eqn:E.
    + exists z. split; [|reflexivity].
      destruct (Z_le_dec 1 z); [destruct (Z_le_dec z 5); [lia|]|];
        rewrite cash_out_no_row in H; try discriminate;
        intros k Hk; rewrite E; intros [= ->]; lia.
    + unfold CASH_OUT_TABLE in H. cbn [get] in H. rewrite E in H. discriminate.
  - intros (k & Hk & E).
    rewrite (get_to_Z _ b (of_Z k)).
    + rewrite cash_out_row by exact Hk. eexists. reflexivity.
    + rewrite E. symmetry. apply to_Z_of_Z. change (2 ^ 53) with 9007199254740992. lia.
Qed.

(** X1: [cashOutSplit] returns exactly when the batch count stands for one
    of 1..5, whatever the amount; otherwise it throws INVALID_BATCH_COUNT. *)
Theorem cashOutSplit_returns_iff (batchCount uv : number) :
  ((exists r, cashOutSplit batchCount uv = Return r) <->
   (exists k, 1 <= k <= 5 /\ to_Z batchCount = Some k)) /\
  ((forall r, cashOutSplit batchCount uv <> Return r) ->
   cashOutSplit batchCount uv = Throw "INVALID_BATCH_COUNT").
Proof.
  unfold cashOutSplit. split; [split|].
  - intros [r H]. apply cash_out_row_iff.
    destruct (get CASH_OUT_TABLE batchCount) as [row|]; [eexists; reflexivity|discriminate].
  - intros H. apply cash_out_row_iff in H. destruct H as [row ->]. eexists. reflexivity.
  - intros H. destruct (get CASH_OUT_TABLE batchCount) as [row|]; [|reflexivity].
    elim (H _ eq_refl).
Qed.

Ltac pct_cases b :=
  let C := fresh "C" in
  assert (C : b = 1 \/ b = 2 \/ b = 3 \/ b = 4 \/ b = 5) by lia;
  destruct C as [->|[->|[->|[->| ->]]]].

(** The payout of a batch count as a floor of a binary64 product. *)
Lemma cashOutSplit_payout b uv P :
  1 <= b <= 5 -> 0 <= uv < 2 ^ 53 ->
  Math_floor (mul (of_Z uv) (decimal (collaboratorPct b) 100)) = of_Z P ->
  0 <= P <= uv ->
  cashOutSplit (of_Z b) (of_Z uv)
  = Return {| collaboratorPayout := of_Z P; trebalCapture := of_Z (uv - P) |}.
Proof.
  intros Hb Huv E HP. unfold cashOutSplit. rewrite (cash_out_row b Hb).
  cbn [collaboratorUvPct]. rewrite E, sub_of_Z by lia. reflexivity.
Qed.

Lemma floor_30_percent uv :
  0 <= uv <= 2 ^ 49 ->
  Math_floor (mul (of_Z uv) (decimal 30 100)) = of_Z (percent 30 uv).
Proof.
  intros Huv. rewrite decimal_30.
  floor_at uv 5404319552844595%positive (-54) P E P0 Lo Hi.
  rewrite E. f_equal. unfold percent.
  specialize (Lo (uv * 30 / 100)). specialize (Hi (uv * 30 / 100)).
  Z.div_mod_to_equations. lia.
Qed.

Lemma floor_40_percent uv :
  0 <= uv <= 2 ^ 49 ->
  Math_floor (mul (of_Z uv) (decimal 40 100)) = of_Z (percent 40 uv).
Proof.
  intros Huv. rewrite decimal_40.
  floor_at uv 7205759403792794%positive (-54) P E P0 Lo Hi.
  rewrite E. f_equal. unfold percent.
  specialize (Lo (uv * 40 / 100)). specialize (Hi (uv * 40 / 100)).
  Z.div_mod_to_equations. lia.
Qed.

Lemma floor_45_percent uv :
  0 <= uv <= 2 ^ 49 ->
  Math_floor (mul (of_Z uv) (decimal 45 100)) = of_Z (percent 45 uv).
Proof.
  intros Huv. rewrite decimal_45.
  floor_at uv 8106479329266893%positive (-54) P E P0 Lo Hi.
  rewrite E. f_equal. unfold percent.
  specialize (Lo (uv * 45 / 100)). specialize (Hi (uv * 45 / 100)).
  Z.div_mod_to_equations. lia.
Qed.

Lemma floor_35_percent uv :
  0 <= uv <= 2 ^ 49 ->
  exists P, Math_floor (mul (of_Z uv) (decimal 35 100)) = of_Z P /\
            percent 35 uv - 1 <= P <= percent 35 uv /\ 0 <= P.
Proof.
  intros Huv. rewrite decimal_35.
  floor_at uv 6305039478318694%positive (-54) P E P0 Lo Hi.
  exists P. split; [exact E|]. split; [|exact P0]. unfold percent.
  specialize (Lo (uv * 35 / 100 - 1)). specialize (Hi (uv * 35 / 100)).
  Z.div_mod_to_equations. lia.
Qed.

(** X2: up to 2^49 the rows 0.30, 0.40, 0.45 and 0.50 pay the exact
    percentage; the row 0.35 pays it or one unit less, never more. *)
Theorem cashOutSplit_exact_but_row_2 b uv :
  1 <= b <= 5 -> 0 <= uv <= 2 ^ 49 ->
  exists p,
    cashOutSplit (of_Z b) (of_Z uv)
    = Return {| collaboratorPayout := of_Z p; trebalCapture := of_Z (uv - p) |} /\
    (b <> 2 -> p = percent (collaboratorPct b) uv) /\
    (b = 2 -> percent 35 uv - 1 <= p <= percent 35 uv).
Proof.
  intros Hb Huv.
  assert (S : 0 <= uv < 2 ^ 53)
    by (change (2 ^ 49) with 562949953421312 in Huv;
        change (2 ^ 53) with 9007199254740992; lia).
  assert (B : forall q, 0 <= percent q uv <= uv \/ q < 0 \/ 100 < q).
  { intros q. unfold percent.
    destruct (Z_lt_dec q 0); [lia|]. destruct (Z_lt_dec 100 q); [lia|].
    left. split.
    - apply Z.div_pos; nia.
    - apply Z.div_le_upper_bound; nia. }
  pct_cases b.
  - exists (percent 30 uv). split; [|split; [reflexivity|lia]].
    apply cashOutSplit_payout; try lia; [apply floor_30_percent; exact Huv|].
    destruct (B 30); lia.
  - destruct (floor_35_percent uv Huv) as (P & E & Bp & P0).
    exists P. split; [|split; [lia|intros _; exact Bp]].
    apply cashOutSplit_payout; try lia; [exact E|]. destruct (B 35); lia.
  - exists (percent 40 uv). split; [|split; [reflexivity|lia]].
    apply cashOutSplit_payout; try lia; [apply floor_40_percent; exact Huv|].
    destruct (B 40); lia.
  - exists (percent 45 uv). split; [|split; [reflexivity|lia]].
    apply cashOutSplit_payout; try lia; [apply floor_45_percent; exact Huv|].
    destruct (B 45); lia.
  - exists (percent 50 uv). split; [|split; [reflexivity|lia]].
    apply cashOutSplit_payout; try lia; [apply floor_half; exact S|].
    destruct (B 50); lia.
Qed.

Lemma cashOutSplit_exact_but_row_2_witness :
  exists p,
    cashOutSplit (of_Z 4) (of_Z 342000)
    = Return {| collaboratorPayout := of_Z p; trebalCapture := of_Z (342000 - p) |} /\
    (4 <> 2 -> p = percent (collaboratorPct 4) 342000) /\
    (4 = 2 -> percent 35 342000 - 1 <= p <= percent 35 342000).
Proof.
  apply (cashOutSplit_exact_but_row_2 4 342000); [lia|].
  change (2 ^ 49) with 562949953421312. lia.
Defined.

(** Two amounts at one rate: the payout grows with the amount, by no more
    than the amount does. *)
Ltac two_amounts uv1 uv2 m e :=
  let P1 := fresh "P1" in let P2 := fresh "P2" in
  let E1 := fresh "E1" in let E2 := fresh "E2" in
  let Q1 := fresh "Q1" in let Q2 := fresh "Q2" in
  let Lo1 := fresh "Lo1" in let Lo2 := fresh "Lo2" in
  let Hi1 := fresh "Hi1" in let Hi2 := fresh "Hi2" in
  floor_at uv1 m e P1 E1 Q1 Lo1 Hi1;
  floor_at uv2 m e P2 E2 Q2 Lo2 Hi2;
  exists P1, P2; split; [exact E1|]; split; [exact E2|];
  assert (P1 <= uv1) by (apply Hi1; lia);
  assert (P2 <= uv2) by (apply Hi2; lia);
  assert (P1 <= P2)
    by (specialize (Hi1 (P1 - 1)); specialize (Lo2 P1); lia);
  assert (P2 - P1 <= uv2 - uv1)
    by (specialize (Hi2 (P2 - 1));
        match type of Lo1 with
        | forall N, ?a * (N * ?C - ?X) <= ?X -> _ =>
            specialize (Lo1 ((X * (a + 1)) / (a * C)))
        end;
        Z.div_mod_to_equations; lia);
  lia.

Lemma payout_two_amounts b uv1 uv2 :
  1 <= b <= 5 -> 0 <= uv1 < uv2 -> uv2 < 2 ^ 53 ->
  exists P1 P2,
    Math_floor (mul (of_Z uv1) (decimal (collaboratorPct b) 100)) = of_Z P1 /\
    Math_floor (mul (of_Z uv2) (decimal (collaboratorPct b) 100)) = of_Z P2 /\
    0 <= P1 <= uv1 /\ 0 <= P2 <= uv2 /\ P1 <= P2 /\ P2 - P1 <= uv2 - uv1.
Proof.
  intros Hb H1 H2. pct_cases b.
  - change (decimal (collaboratorPct 1) 100) with (decimal 30 100). rewrite decimal_30.
    two_amounts uv1 uv2 5404319552844595%positive (-54).
  - change (decimal (collaboratorPct 2) 100) with (decimal 35 100). rewrite decimal_35.
    two_amounts uv1 uv2 6305039478318694%positive (-54).
  - change (decimal (collaboratorPct 3) 100) with (decimal 40 100). rewrite decimal_40.
    two_amounts uv1 uv2 7205759403792794%positive (-54).
  - change (decimal (collaboratorPct 4) 100) with (decimal 45 100). rewrite decimal_45.
    two_amounts uv1 uv2 8106479329266893%positive (-54).
  - change (decimal (collaboratorPct 5) 100) with (decimal 50 100). rewrite decimal_50.
    two_amounts uv1 uv2 4503599627370496%positive (-53).
Qed.

(** ** Cash-out of two amounts at one batch count *)

(** X3: at a fixed batch count, a larger amount gives the collaborator at
    least as much and Trebal at least as much: neither part of the split
    ever shrinks when the amount grows. *)
Theorem cashOutSplit_monotone_in_amount b uv1 uv2 :
  1 <= b <= 5 -> 0 <= uv1 <= uv2 -> uv2 <= MAX_SAFE_INTEGER ->
  exists p1 t1 p2 t2,
    cashOutSplit (of_Z b) (of_Z uv1)
    = Return {| collaboratorPayout := of_Z p1; trebalCapture := of_Z t1 |} /\
    cashOutSplit (of_Z b) (of_Z uv2)
    = Return {| collaboratorPayout := of_Z p2; trebalCapture := of_Z t2 |} /\
    0 <= p1 <= p2 /\ 0 <= t1 <= t2 /\ p1 + t1 = uv1 /\ p2 + t2 = uv2.
Proof.
  intros Hb H1 H2. assert (S2 : 0 <= uv2 < 2 ^ 53) by (apply safe_integer; lia).
  destruct (Z.eq_dec uv1 uv2) as [->|Hne].
  - destruct (cashOutSplit_table uv2 S2) as (P & HP & _).
    destruct (HP b Hb) as (E & B & _).
    exists (P b), (uv2 - P b), (P b), (uv2 - P b). repeat split; try assumption; lia.
  - destruct (payout_two_amounts b uv1 uv2 Hb ltac:(lia) ltac:(lia))
      as (P1 & P2 & E1 & E2 & B1 & B2 & M & D).
    exists P1, (uv1 - P1), P2, (uv2 - P2).
    split; [apply cashOutSplit_payout; try assumption; lia|].
    split; [apply cashOutSplit_payout; try assumption; lia|].
    lia.
Qed.

Lemma cashOutSplit_monotone_in_amount_witness :
  exists p1 t1 p2 t2,
    cashOutSplit (of_Z 2) (of_Z 180)
    = Return {| collaboratorPayout := of_Z p1; trebalCapture := of_Z t1 |} /\
    cashOutSplit (of_Z 2) (of_Z 342000)
    = Return {| collaboratorPayout := of_Z p2; trebalCapture := of_Z t2 |} /\
    0 <= p1 <= p2 /\ 0 <= t1 <= t2 /\ p1 + t1 = 180 /\ p2 + t2 = 342000.
Proof.
  apply (cashOutSplit_monotone_in_amount 2 180 342000);
    [lia | lia | unfold MAX_SAFE_INTEGER; lia].
Defined.

(** ** The allocation over the whole range of exact integers *)

Lemma floor_tenth_bounds uv :
  0 <= uv < 2 ^ 53 ->
  exists P, Math_floor (mul (of_Z uv) (decimal 10 100)) = of_Z P /\
            percent 10 uv <= P <= percent 10 uv + 1.
Proof.
  intros Huv. rewrite decimal_10.
  floor_at uv 7205759403792794%positive (-56) P E P0 Lo Hi.
  exists P. split; [exact E|]. unfold percent.
  specialize (Lo (uv * 10 / 100)). specialize (Hi (uv * 10 / 100 + 1)).
  Z.div_mod_to_equations. lia.
Qed.

Lemma floor_15_percent_bounds uv :
  0 <= uv < 2 ^ 53 ->
  exists P, Math_floor (mul (of_Z uv) (decimal 15 100)) = of_Z P /\
            percent 15 uv <= P <= percent 15 uv + 1.
Proof.
  intros Huv. rewrite decimal_15.
  floor_at uv 5404319552844595%positive (-55) P E P0 Lo Hi.
  exists P. split; [exact E|]. unfold percent.
  specialize (Lo (uv * 15 / 100)). specialize (Hi (uv * 15 / 100 + 1)).
  Z.div_mod_to_equations. lia.
Qed.

(** X4: on every integer amount up to 2^53-1 the platform fee and the
    discount pool are the exact floors of 10% and 15% or one unit above,
    never below, and the fee does not exceed the pool. *)
Theorem allocation_never_below_the_floor uv :
  0 <= uv <= MAX_SAFE_INTEGER ->
  exists fee pool,
    distributionInternalAllocationFromUv (of_Z uv)
    = {| platformFee := of_Z fee; discountPool := of_Z pool |} /\
    percent 10 uv <= fee <= percent 10 uv + 1 /\
    percent 15 uv <= pool <= percent 15 uv + 1 /\
    fee <= pool.
Proof.
  intros Huv. apply safe_integer in Huv.
  unfold distributionInternalAllocationFromUv.
  destruct (Z.le_gt_cases uv (2 ^ 52)) as [S|L].
  - (* both products are exact *)
    exists (percent 10 uv), (percent 15 uv).
    rewrite floor_tenth, floor_15_percent by lia.
    split; [reflexivity|]. unfold percent. Z.div_mod_to_equations. lia.
  - destruct (floor_tenth_bounds uv Huv) as (fee & Ef & Bf).
    destruct (floor_15_percent_bounds uv Huv) as (pool & Ep & Bp).
    exists fee, pool. rewrite Ef, Ep.
    split; [reflexivity|]. split; [exact Bf|]. split; [exact Bp|].
    change (2 ^ 52) with 4503599627370496 in L.
    unfold percent in *. Z.div_mod_to_equations. lia.
Qed.

Lemma allocation_never_below_the_floor_witness :
  exists fee pool,
    distributionInternalAllocationFromUv (of_Z 6755399441055749)
    = {| platformFee := of_Z fee; discountPool := of_Z pool |} /\
    percent 10 6755399441055749 <= fee <= percent 10 6755399441055749 + 1 /\
    percent 15 6755399441055749 <= pool <= percent 15 6755399441055749 + 1 /\
    fee <= pool.
Proof.
  apply (allocation_never_below_the_floor 6755399441055749).
  unfold MAX_SAFE_INTEGER. lia.
Defined.

(** ** Seller classes, the terminal threshold and the decay rates *)

Lemma geb_threshold (x : number) k :
  In k [80; 150; 300] -> geb x (of_Z k) = true -> geb x (of_Z 40) = true.
Proof.
  intros Hk. unfold geb, SFleb.
  change (of_Z 40) with (S754_finite false 5629499534213120 (-47)).
  assert (E : exists m1 e1, of_Z k = S754_finite false m1 e1 /\ -47 < e1).
  { destruct Hk as [<-|[<-|[<-|[]]]].
    - exists 5629499534213120%positive, (-46). split; [reflexivity|lia].
    - exists 5277655813324800%positive, (-45). split; [reflexivity|lia].
    - exists 5277655813324800%positive, (-44). split; [reflexivity|lia]. }
  destruct E as (m1 & e1 & -> & He).
  destruct x as [s|[]| |[] m e]; try (intros; discriminate); try reflexivity.
  unfold SFcompare.
  destruct (Z.compare_spec e1 e), (Z.compare_spec (-47) e);
    try discriminate; try reflexivity; lia.
Qed.

(** X5: for every number [sem], NaN and the infinities included, the
    class computed from it may distribute exactly when
    [sem >= DISTRIBUTION_TERMINAL_THRESHOLD] holds; otherwise the
    assertion throws SELLER_CLASS_E_NOT_PERMITTED. *)
Theorem seller_can_distribute_iff (sem : number) :
  assertSellerCanDistribute (computeSellerClass sem)
  = if geb sem DISTRIBUTION_TERMINAL_THRESHOLD
    then Return tt
    else Throw "SELLER_CLASS_E_NOT_PERMITTED"%string.
Proof.
  unfold computeSellerClass, DISTRIBUTION_TERMINAL_THRESHOLD.
  destruct (geb sem (of_Z 300)) eqn:A.
  { rewrite (geb_threshold sem 300) by (cbn; tauto || exact A). reflexivity. }
  destruct (geb sem (of_Z 150)) eqn:B.
  { rewrite (geb_threshold sem 150) by (cbn; tauto || exact B). reflexivity. }
  destruct (geb sem (of_Z 80)) eqn:C.
  { rewrite (geb_threshold sem 80) by (cbn; tauto || exact C). reflexivity. }
  destruct (geb sem (of_Z 40)); reflexivity.
Qed.

(** X6: every class that [computeSellerClass] can return has an entry
    in [DECAY_RATE_BY_CLASS], and the rate is zero exactly for the numbers
    below the terminal threshold (class E). *)
Theorem decay_rate_of_computed_class (sem : number) :
  exists rate,
    lookup DECAY_RATE_BY_CLASS (computeSellerClass sem) = Some rate /\
    (rate = of_Z 0 <-> geb sem DISTRIBUTION_TERMINAL_THRESHOLD = false).
Proof.
  unfold computeSellerClass, DISTRIBUTION_TERMINAL_THRESHOLD.
  destruct (geb sem (of_Z 300)) eqn:A.
  { rewrite (geb_threshold sem 300) by (cbn; tauto || exact A).
    eexists. split; [reflexivity|]. split; [vm_compute|]; discriminate. }
  destruct (geb sem (of_Z 150)) eqn:B.
  { rewrite (geb_threshold sem 150) by (cbn; tauto || exact B).
    eexists. split; [reflexivity|]. split; [vm_compute|]; discriminate. }
  destruct (geb sem (of_Z 80)) eqn:C.
  { rewrite (geb_threshold sem 80) by (cbn; tauto || exact C).
    eexists. split; [reflexivity|]. split; [vm_compute|]; discriminate. }
  destruct (geb sem (of_Z 40)).
  - eexists. split; [reflexivity|]. split; [vm_compute|]; discriminate.
  - eexists. split; [reflexivity|]. split; reflexivity.
Qed.

(** * Further properties of the handlers *)

Lemma certificate_ok id owner state :
  In state ["GIFT"; "STACKED"; "RETIRED"]%string -> certificateOk (certificate id owner state).
Proof.
  intros Hs. split; [|split].
  - exists 1000. split; [vm_compute; tauto|]. repeat split.
  - cbn [certificate Nft.state]. cbn in Hs |- *. tauto.
  - cbn [certificate Nft.state]. intros ->. cbn in Hs.
    destruct Hs as [H|[H|[H|[]]]]; discriminate.
Qed.

Lemma dbBobAtCapacity_ok : dbOk dbBobAtCapacity.
Proof.
  unfold dbOk, dbBobAtCapacity. cbn [nfts].
  repeat (constructor; [apply certificate_ok; cbn; tauto|]). constructor.
Qed.

Lemma dbWithSeller_ok : dbOk dbWithSeller.
Proof.
  unfold dbOk, dbWithSeller. cbn [nfts].
  repeat (constructor; [apply certificate_ok; cbn; tauto|]). constructor.
Qed.

(** ** The routes *)

Ltac break_match :=
  match goal with
  | |- context [match ?x with _ => _ end] =>
      lazymatch x with
      | context [match _ with _ => _ end] => fail
      | _ => destruct x eqn:?
      end
  end.

Ltac unfold_route :=
  unfold route, nft_purchase, nft_gift, nft_stack, nft_cashout,
    nft_sponsorship_convert, auth, requireRole, committed, updateNft.

(** X7: the two middlewares come before everything else on each of the
    five routes: without a verified token the answer is 401
    UNAUTHENTICATED, with a token that lacks the role of the route it is
    403 FORBIDDEN, and in both cases nothing is written, whatever the
    request body holds. *)
Theorem route_guards_come_first token request db :
  match token with
  | None => route token request db = (Respond 401 (Error "UNAUTHENTICATED"), db)
  | Some user =>
      has (routeRole request) (Jwt.roles user) = false ->
      route token request db = (Respond 403 (Error "FORBIDDEN"), db)
  end.
Proof.
  destruct token as [user|]; [intros Hr|]; destruct request;
    cbn [route routeRole] in *; unfold_route; try rewrite Hr; reflexivity.
Qed.

Lemma route_guards_come_first_witness :
  route (Some bob) (Purchase S754_nan "n1") emptyDb
  = (Respond 403 (Error "FORBIDDEN"), emptyDb).
Proof.
  apply (route_guards_come_first (Some bob) (Purchase S754_nan "n1") emptyDb).
  reflexivity.
Defined.

(** X8: a request either succeeds, and then the tables differ from before by
    exactly one audit event, written in the caller's name, besides the
    certificate rows; or it leaves the tables as they were. *)
Theorem route_writes_once_or_never token request db :
  if succeeded (fst (route token request db))
  then exists user event,
      token = Some user /\
      AuditEvent.actorId event = Some (Jwt.sub user) /\
      auditEvents (snd (route token request db)) = auditEvents db ++ [event] /\
      users (snd (route token request db)) = users db
  else snd (route token request db) = db.
Proof.
  destruct request; unfold_route;
    repeat (break_match; cbn [fst snd succeeded negb]);
    try reflexivity; try discriminate;
    try (do 2 eexists; repeat split; reflexivity).
Qed.

Ltac clean_tests :=
  repeat match goal with
         | H : negb _ = false |- _ => apply negb_false_iff in H
         | H : negb _ = true |- _ => apply negb_true_iff in H
         | H : String.eqb _ _ = true |- _ => apply String.eqb_eq in H
         | H : String.eqb _ _ = false |- _ => apply String.eqb_neq in H
         | H : (_ <=? _)%Z = true |- _ => apply Z.leb_le in H
         | H : (_ <=? _)%Z = false |- _ => apply Z.leb_gt in H
         end.

(** X9: a gift succeeds exactly when the caller holds CUSTOMER and owns
    the certificate, and the target holds COLLABORATOR and fewer than five
    certificates that are not RETIRED.  The state of the certificate
    plays no part. *)
Theorem gift_succeeds_iff token nftId collaboratorId db :
  succeeded (fst (nft_gift token nftId collaboratorId db)) = true <->
  exists user nft target,
    token = Some user /\
    has "CUSTOMER" (Jwt.roles user) = true /\
    findNft db nftId = Some nft /\
    Nft.ownerId nft = Jwt.sub user /\
    findUser db collaboratorId = Some target /\
    has "COLLABORATOR" (User.roles target) = true /\
    countActive db collaboratorId < 5.
Proof.
  split.
  - unfold_route.
    repeat (break_match; cbn [fst snd succeeded negb]); intros; try discriminate;
      clean_tests; subst.
    all: do 3 eexists; repeat split; try eassumption; try reflexivity.
  - intros (user & nft & t & -> & Hr & Hf & Ho & Ht & Hc & Hn).
    unfold_route. rewrite Hr, Hf, Ho, String.eqb_refl, Ht, Hc. cbn [negb].
    destruct (Z.leb_spec 5 (countActive db collaboratorId)); [lia|]. reflexivity.
Qed.

(** X10: stacking succeeds exactly when the caller holds COLLABORATOR and
    owns the certificate, and the certificate is not RETIRED. *)
Theorem stack_succeeds_iff token nftId db :
  succeeded (fst (nft_stack token nftId db)) = true <->
  exists user nft,
    token = Some user /\
    has "COLLABORATOR" (Jwt.roles user) = true /\
    findNft db nftId = Some nft /\
    Nft.ownerId nft = Jwt.sub user /\
    Nft.state nft <> "RETIRED"%string.
Proof.
  split.
  - unfold_route.
    repeat (break_match; cbn [fst snd succeeded negb]); intros; try discriminate;
      clean_tests; subst.
    all: do 2 eexists; repeat split; try eassumption; try reflexivity.
  - intros (user & nft & -> & Hr & Hf & Ho & Hs).
    apply String.eqb_neq in Hs.
    unfold_route. rewrite Hr, Hf, Ho, String.eqb_refl, Hs. reflexivity.
Qed.

Lemma batchCountSchema_iff (b : number) :
  batchCountSchema b = true <-> exists k, 1 <= k <= 5 /\ to_Z b = Some k.
Proof.
  unfold batchCountSchema. split.
  - destruct (to_Z b) as [z|]; [|discriminate].
    intros H. apply andb_true_iff in H. destruct H as [H1 H2].
    apply Z.leb_le in H1, H2. exists z. split; [lia|reflexivity].
  - intros (k & Hk & ->). apply andb_true_iff. split; apply Z.leb_le; lia.
Qed.

(** X11: a cash-out succeeds exactly when the batch count is an integer of
    1..5, the caller holds COLLABORATOR and owns the certificate, and the
    certificate is not RETIRED. *)
Theorem cashout_succeeds_iff token nftId batchCount db :
  succeeded (fst (nft_cashout token nftId batchCount db)) = true <->
  exists user nft,
    token = Some user /\
    has "COLLABORATOR" (Jwt.roles user) = true /\
    batchCountSchema batchCount = true /\
    findNft db nftId = Some nft /\
    Nft.ownerId nft = Jwt.sub user /\
    Nft.state nft <> "RETIRED"%string.
Proof.
  split.
  - unfold_route.
    repeat (break_match; cbn [fst snd succeeded negb]); intros; try discriminate;
      clean_tests; subst.
    all: do 2 eexists; repeat split; try eassumption; try reflexivity.
  - intros (user & nft & -> & Hr & Hb & Hf & Ho & Hs).
    apply String.eqb_neq in Hs.
    unfold_route. rewrite Hr, Hb, Hf, Ho, String.eqb_refl, Hs. cbn [negb].
    apply batchCountSchema_iff, cash_out_row_iff in Hb. destruct Hb as [row Hrow].
    unfold cashOutSplit. rewrite Hrow. reflexivity.
Qed.

(** X12: a sponsorship conversion succeeds exactly when the caller holds
    COLLABORATOR and owns the certificate, the certificate is not RETIRED
    and the target holds SELLER. *)
Theorem sponsorship_convert_succeeds_iff token nftId sellerId db :
  succeeded (fst (nft_sponsorship_convert token nftId sellerId db)) = true <->
  exists user nft target,
    token = Some user /\
    has "COLLABORATOR" (Jwt.roles user) = true /\
    findNft db nftId = Some nft /\
    findUser db sellerId = Some target /\
    has "SELLER" (User.roles target) = true /\
    Nft.ownerId nft = Jwt.sub user /\
    Nft.state nft <> "RETIRED"%string.
Proof.
  split.
  - unfold_route.
    repeat (break_match; cbn [fst snd succeeded negb]); intros; try discriminate;
      clean_tests; subst.
    all: do 3 eexists; repeat split; try eassumption; try reflexivity.
  - intros (user & nft & t & -> & Hr & Hf & Ht & Hc & Ho & Hs).
    apply String.eqb_neq in Hs.
    unfold_route. rewrite Hr, Hf, Ht, Hc, Ho, String.eqb_refl, Hs. reflexivity.
Qed.

(** [splitLvUv] on the ladder, and [includes] on it. *)
Lemma splitLvUv_ladder f :
  In f LADDER_LITERALS ->
  splitLvUv (of_Z f) = Return {| lv := of_Z (f / 10); uv := of_Z (f - f / 10) |} /\
  to_Z (of_Z f) = Some f.
Proof.
  intros Hf. unfold LADDER_LITERALS in Hf. cbn [In] in Hf.
  repeat (destruct Hf as [<-|Hf]; [split; vm_compute; reflexivity|]). contradiction.
Qed.

Lemma ladder_literal x :
  In x NFT_FACE_VALUE_LADDER -> exists f, In f LADDER_LITERALS /\ x = of_Z f.
Proof.
  unfold NFT_FACE_VALUE_LADDER. intros H. apply in_map_iff in H.
  destruct H as (f & <- & Hf). exists f. split; [exact Hf|reflexivity].
Qed.

Lemma splitLvUv_returns x split :
  splitLvUv x = Return split ->
  exists f, In f LADDER_LITERALS /\ x = of_Z f /\
            lv split = of_Z (f / 10) /\ uv split = of_Z (f - f / 10).
Proof.
  intros H.
  assert (I : In x NFT_FACE_VALUE_LADDER).
  { apply includes_ladder. unfold splitLvUv, assertFaceValueAllowed in H.
    destruct (includes NFT_FACE_VALUE_LADDER x); [reflexivity|discriminate]. }
  destruct (ladder_literal x I) as (f & Hf & ->).
  destruct (splitLvUv_ladder f Hf) as [E _]. rewrite E in H. injection H as <-.
  exists f. repeat split; assumption.
Qed.

(** X13: a purchase succeeds exactly when the caller holds CUSTOMER and
    the face value is one of the ladder. *)
Theorem purchase_succeeds_iff token faceValue newId db :
  succeeded (fst (nft_purchase token faceValue newId db)) = true <->
  exists user f,
    token = Some user /\
    has "CUSTOMER" (Jwt.roles user) = true /\
    In f LADDER_LITERALS /\ faceValue = of_Z f.
Proof.
  split.
  - unfold_route. unfold bind.
    destruct token as [user|]; [|discriminate].
    destruct (has "CUSTOMER" (Jwt.roles user)) eqn:Hr; [|discriminate]. cbn [negb].
    destruct (to_Z faceValue); [|discriminate].
    destruct (assertFaceValueAllowed faceValue); [|discriminate].
    destruct (splitLvUv faceValue) as [split|] eqn:E; [|discriminate].
    intros _. destruct (splitLvUv_returns _ _ E) as (f & Hf & -> & _).
    exists user, f. repeat split; assumption.
  - intros (user & f & -> & Hr & Hf & ->).
    destruct (splitLvUv_ladder f Hf) as [E Z].
    unfold_route. unfold bind. rewrite Hr, Z. cbn [negb].
    assert (A : assertFaceValueAllowed (of_Z f) = Return tt).
    { unfold splitLvUv, bind in E.
      destruct (assertFaceValueAllowed (of_Z f)) as [[]|]; [reflexivity|discriminate]. }
    rewrite A, E. reflexivity.
Qed.

(** ** Rows of the certificate table *)

Lemma findNft_id db id nft : findNft db id = Some nft -> Nft.id nft = id.
Proof.
  unfold findNft. intros H. apply find_some in H. destruct H as [_ H].
  apply String.eqb_eq in H. exact H.
Qed.

Lemma findNft_In db id nft : findNft db id = Some nft -> In nft (nfts db).
Proof. unfold findNft. intros H. apply find_some in H. tauto. Qed.

Lemma find_update (l : list Nft.t) id data id' :
  (forall n, Nft.id (data n) = Nft.id n) ->
  find (fun n => String.eqb (Nft.id n) id')
    (map (fun n => if String.eqb (Nft.id n) id then data n else n) l)
  = option_map (fun n => if String.eqb (Nft.id n) id then data n else n)
      (find (fun n => String.eqb (Nft.id n) id') l).
Proof.
  intros Hid. induction l as [|n l IH]; [reflexivity|]. cbn [map find].
  assert (E : Nft.id (if String.eqb (Nft.id n) id then data n else n) = Nft.id n)
    by (destruct (String.eqb (Nft.id n) id); [apply Hid|reflexivity]).
  rewrite E. destruct (String.eqb (Nft.id n) id'); [reflexivity|exact IH].
Qed.

Lemma find_last (l : list Nft.t) (c : Nft.t) id :
  find (fun n => String.eqb (Nft.id n) id) (l ++ [c])
  = match find (fun n => String.eqb (Nft.id n) id) l with
    | Some n => Some n
    | None => if String.eqb (Nft.id c) id then Some c else None
    end.
Proof.
  induction l as [|n l IH]; cbn [app find]; [reflexivity|].
  destruct (String.eqb (Nft.id n) id); [reflexivity|exact IH].
Qed.

(** What the update of one row does to the lookups. *)
Lemma updateNft_lookup db id data event row db' :
  (forall n, Nft.id (data n) = Nft.id n) ->
  updateNft db id data event = Some (row, db') ->
  exists nft,
    findNft db id = Some nft /\ row = data nft /\
    findNft db' id = Some (data nft) /\
    (forall id', id' <> id -> findNft db' id' = findNft db id') /\
    users db' = users db.
Proof.
  intros Hid. unfold updateNft.
  destruct (findNft db id) as [nft|] eqn:F; [|discriminate].
  intros [= <- <-]. exists nft.
  assert (I := findNft_id _ _ _ F).
  unfold findNft in *. cbn [nfts users].
  repeat split.
  - rewrite find_update by exact Hid. rewrite F. cbn [option_map].
    rewrite I, String.eqb_refl. reflexivity.
  - intros id' Hne. rewrite find_update by exact Hid.
    destruct (find (fun n => String.eqb (Nft.id n) id') (nfts db)) as [n|] eqn:F';
      [|reflexivity]. cbn [option_map].
    apply find_some in F'. destruct F' as [_ F']. apply String.eqb_eq in F'.
    destruct (String.eqb_spec (Nft.id n) id); [congruence|reflexivity].
Qed.

Lemma route_frame_lemma token request db id :
  id <> target request ->
  findNft (snd (route token request db)) id = findNft db id.
Proof.
  intros Hne. destruct request; cbn [target] in Hne; unfold route.
  - unfold nft_purchase, auth, requireRole, bind.
    repeat (break_match; cbn [fst snd]); try reflexivity.
    unfold findNft. cbn [nfts]. rewrite find_last. cbn [Nft.id].
    destruct (find _ (nfts db)); [reflexivity|].
    destruct (String.eqb_spec newId id); [congruence|reflexivity].
  - unfold nft_gift, auth, requireRole, committed.
    repeat (break_match; cbn [fst snd]); try reflexivity.
    all: match goal with H : updateNft _ _ _ _ = Some _ |- _ =>
      apply updateNft_lookup in H;
      [destruct H as (? & _ & _ & _ & Hf & _); apply Hf; exact Hne|reflexivity] end.
  - unfold nft_stack, auth, requireRole, committed.
    repeat (break_match; cbn [fst snd]); try reflexivity.
    all: match goal with H : updateNft _ _ _ _ = Some _ |- _ =>
      apply updateNft_lookup in H;
      [destruct H as (? & _ & _ & _ & Hf & _); apply Hf; exact Hne|reflexivity] end.
  - unfold nft_cashout, auth, requireRole, committed.
    repeat (break_match; cbn [fst snd]); try reflexivity.
    all: match goal with H : updateNft _ _ _ _ = Some _ |- _ =>
      apply updateNft_lookup in H;
      [destruct H as (? & _ & _ & _ & Hf & _); apply Hf; exact Hne|reflexivity] end.
  - unfold nft_sponsorship_convert, auth, requireRole, committed.
    repeat (break_match; cbn [fst snd]); try reflexivity.
    all: match goal with H : updateNft _ _ _ _ = Some _ |- _ =>
      apply updateNft_lookup in H;
      [destruct H as (? & _ & _ & _ & Hf & _); apply Hf; exact Hne|reflexivity] end.
Qed.

(** X14: a request leaves every certificate other than its target as it
    was, and never touches the users. *)
Theorem route_frame token request db id :
  id <> target request ->
  findNft (snd (route token request db)) id = findNft db id /\
  users (snd (route token request db)) = users db.
Proof.
  intros Hne. split; [apply route_frame_lemma; exact Hne|].
  destruct request; unfold_route; unfold bind;
    repeat (break_match; cbn [fst snd users]); reflexivity.
Qed.

Lemma route_frame_witness :
  findNft (snd (route (Some bob) (Stack "b1") dbBobAtCapacity)) "b2"
  = findNft dbBobAtCapacity "b2" /\
  users (snd (route (Some bob) (Stack "b1") dbBobAtCapacity)) = users dbBobAtCapacity.
Proof.
  apply (route_frame (Some bob) (Stack "b1") dbBobAtCapacity "b2"). discriminate.
Defined.

(** X15: what a successful gift, stack, cash-out or conversion does to its
    certificate: the state and the owner are the ones of the route, the
    identifier and the three values stay. *)
Theorem route_transition token request db nft :
  (forall faceValue newId, request <> Purchase faceValue newId) ->
  findNft db (target request) = Some nft ->
  succeeded (fst (route token request db)) = true ->
  exists user nft',
    token = Some user /\
    findNft (snd (route token request db)) (target request) = Some nft' /\
    Nft.state nft' = stateAfter request /\
    Nft.ownerId nft' = ownerAfter request (Jwt.sub user) (Nft.ownerId nft) /\
    Nft.id nft' = Nft.id nft /\
    Nft.faceValue nft' = Nft.faceValue nft /\
    Nft.lockedValue nft' = Nft.lockedValue nft /\
    Nft.usableValue nft' = Nft.usableValue nft.
Proof.
  intros Hp Hf. destruct request; [elim (Hp _ _ eq_refl)| | | |];
    cbn [target stateAfter ownerAfter] in *; unfold route;
    [unfold nft_gift|unfold nft_stack|unfold nft_cashout|unfold nft_sponsorship_convert];
    unfold auth, requireRole, committed;
    repeat (break_match; cbn [fst snd succeeded]); intros; try discriminate.
  all: match goal with H : updateNft _ _ _ _ = Some _ |- _ =>
         apply updateNft_lookup in H; [|reflexivity];
         destruct H as (n0 & F0 & -> & F1 & _)
       end.
  all: assert (n0 = nft) by congruence; subst n0.
  all: do 2 eexists; split; [reflexivity|]; split; [exact F1|]; repeat split.
Qed.

Lemma route_transition_witness :
  exists user nft',
    Some bob = Some user /\
    findNft (snd (route (Some bob) (Stack "b1") dbBobAtCapacity)) "b1" = Some nft' /\
    Nft.state nft' = "STACKED"%string /\
    Nft.ownerId nft' = "bob"%string /\
    Nft.id nft' = "b1"%string /\
    Nft.faceValue nft' = of_Z 1000 /\
    Nft.lockedValue nft' = of_Z 100 /\
    Nft.usableValue nft' = of_Z 900.
Proof.
  apply (route_transition (Some bob) (Stack "b1") dbBobAtCapacity
           (certificate "b1" "bob" "GIFT")).
  - discriminate.
  - reflexivity.
  - reflexivity.
Defined.

(** ** The invariant of the certificate table *)

Lemma Forall_update (l : list Nft.t) id (data : Nft.t -> Nft.t) :
  (forall n, certificateOk n -> certificateOk (data n)) ->
  Forall certificateOk l ->
  Forall certificateOk
    (map (fun n => if String.eqb (Nft.id n) id then data n else n) l).
Proof.
  intros Hd H. apply Forall_map. eapply Forall_impl; [|exact H].
  intros n Hn. cbv beta. destruct (String.eqb (Nft.id n) id); [apply Hd|]; exact Hn.
Qed.

Lemma updateNft_ok db id data event row db' :
  (forall n, certificateOk n -> certificateOk (data n)) ->
  dbOk db -> updateNft db id data event = Some (row, db') -> dbOk db'.
Proof.
  intros Hd Hok. unfold updateNft. destruct (findNft db id); [|discriminate].
  intros [= _ <-]. unfold dbOk. cbn [nfts]. apply Forall_update; assumption.
Qed.

(** A new state other than DISTRIBUTION keeps a certificate in order. *)
Lemma certificateOk_state n n' :
  certificateOk n ->
  Nft.faceValue n' = Nft.faceValue n ->
  Nft.lockedValue n' = Nft.lockedValue n ->
  Nft.usableValue n' = Nft.usableValue n ->
  In (Nft.state n') ["GIFT"; "STACKED"; "DISTRIBUTION"; "RETIRED"]%string ->
  (Nft.state n' = "DISTRIBUTION"%string -> Nft.distributionRemainingValue n' <> None) ->
  certificateOk n'.
Proof.
  intros ((f & Hf & E1 & E2 & E3) & _ & _) F1 F2 F3 S D.
  split; [|split; assumption].
  exists f. rewrite F1, F2, F3. repeat split; assumption.
Qed.

Lemma route_ok token request db : dbOk db -> dbOk (snd (route token request db)).
Proof.
  intros Hok. destruct request; unfold route.
  - unfold nft_purchase, auth, requireRole, bind.
    repeat (break_match; cbn [fst snd]); try exact Hok.
    unfold dbOk. cbn [nfts]. apply Forall_app. split; [exact Hok|].
    constructor; [|constructor].
    match goal with H : splitLvUv _ = Return _ |- _ =>
      destruct (splitLvUv_returns _ _ H) as (f & Hf & -> & L & U) end.
    split; [|split].
    + exists f. cbn. repeat split; assumption.
    + cbn. tauto.
    + cbn. discriminate.
  - unfold nft_gift, auth, requireRole, committed.
    repeat (break_match; cbn [fst snd]); try exact Hok.
    all: match goal with H : updateNft _ _ _ _ = Some _ |- _ =>
           apply (updateNft_ok _ _ _ _ _ _) in H; [exact H| |exact Hok] end.
    all: intros n Hn; apply (certificateOk_state n); try reflexivity;
      [exact Hn|cbn; tauto|cbn; discriminate].
  - unfold nft_stack, auth, requireRole, committed.
    repeat (break_match; cbn [fst snd]); try exact Hok.
    all: match goal with H : updateNft _ _ _ _ = Some _ |- _ =>
           apply (updateNft_ok _ _ _ _ _ _) in H; [exact H| |exact Hok] end.
    all: intros n Hn; apply (certificateOk_state n); try reflexivity;
      [exact Hn|cbn; tauto|cbn; discriminate].
  - unfold nft_cashout, auth, requireRole, committed.
    repeat (break_match; cbn [fst snd]); try exact Hok.
    all: match goal with H : updateNft _ _ _ _ = Some _ |- _ =>
           apply (updateNft_ok _ _ _ _ _ _) in H; [exact H| |exact Hok] end.
    all: intros n Hn; apply (certificateOk_state n); try reflexivity;
      [exact Hn|cbn; tauto|cbn; discriminate].
  - unfold nft_sponsorship_convert, auth, requireRole, committed.
    repeat (break_match; cbn [fst snd]); try exact Hok.
    all: match goal with H : updateNft _ _ _ _ = Some _ |- _ =>
           apply (updateNft_ok _ _ _ _ _ _) in H; [exact H| |exact Hok] end.
    all: intros n Hn; apply (certificateOk_state n); try reflexivity;
      [exact Hn|cbn; tauto|cbn; discriminate].
Qed.

(** X16: no run of requests takes the certificate table out of order: if
    every certificate has a face value of the ladder, a tenth of it locked
    and the rest usable, one of the states GIFT, STACKED, DISTRIBUTION and
    RETIRED, and a remaining value when it is in state DISTRIBUTION, then
    the same holds after the requests are served. *)
Theorem run_keeps_certificates_in_order requests db :
  dbOk db -> dbOk (run requests db).
Proof.
  revert db. induction requests as [|[token request] rest IH]; intros db Hok.
  - exact Hok.
  - cbn [run]. apply IH. apply route_ok. exact Hok.
Qed.

Lemma run_keeps_certificates_in_order_witness :
  dbOk (run [ (Some alice, Purchase (of_Z 380000) "n1"%string);
              (Some alice, Gift "n1" "bob");
              (Some bob, Cashout "n1" (of_Z 2));
              (Some alice, Gift "n1" "dana") ] emptyDb).
Proof.
  apply run_keeps_certificates_in_order. constructor.
Defined.

(** ** RETIRED certificates *)

(** Stack, cash-out and conversion leave the tables as they are when the
    certificate is RETIRED, whoever asks and whatever the other fields. *)
Lemma retired_frozen token request db nft :
  findNft db (target request) = Some nft ->
  Nft.state nft = "RETIRED"%string ->
  match request with
  | Stack _ | Cashout _ _ | SponsorshipConvert _ _ =>
      snd (route token request db) = db /\
      succeeded (fst (route token request db)) = false
  | Purchase _ _ | Gift _ _ => True
  end.
Proof.
  intros Hf Hs. destruct request; cbn [target] in Hf; try exact I; unfold route;
    [unfold nft_stack|unfold nft_cashout|unfold nft_sponsorship_convert];
    unfold auth, requireRole; rewrite Hf, Hs; cbn [String.eqb Ascii.eqb Bool.eqb];
    repeat (break_match; cbn [fst snd succeeded]); split; reflexivity.
Qed.

Lemma purchase_keeps_lookup token faceValue newId db id nft :
  findNft db id = Some nft ->
  findNft (snd (nft_purchase token faceValue newId db)) id = Some nft.
Proof.
  intros Hf. unfold nft_purchase, auth, requireRole, bind.
  repeat (break_match; cbn [fst snd]); try exact Hf.
  unfold findNft in *. cbn [nfts]. rewrite find_last, Hf. reflexivity.
Qed.

(** X17: a RETIRED certificate stays as it is through every run of requests
    in which nobody gifts it. *)
Theorem retired_is_terminal_without_gift requests db id nft :
  findNft db id = Some nft ->
  Nft.state nft = "RETIRED"%string ->
  (forall token collaboratorId, ~ In (token, Gift id collaboratorId) requests) ->
  findNft (run requests db) id = Some nft.
Proof.
  revert db. induction requests as [|[token request] rest IH]; intros db Hf Hs Hg.
  - exact Hf.
  - cbn [run]. apply IH; [|exact Hs|intros t c Hin; apply (Hg t c); right; exact Hin].
    destruct (string_dec id (target request)) as [E|E].
    + subst id. destruct request; cbn [target] in *.
      * apply purchase_keeps_lookup. exact Hf.
      * elim (Hg token collaboratorId). left. reflexivity.
      * destruct (retired_frozen token (Stack nftId) db nft Hf Hs) as [-> _]. exact Hf.
      * destruct (retired_frozen token (Cashout nftId batchCount) db nft Hf Hs) as [-> _].
        exact Hf.
      * destruct (retired_frozen token (SponsorshipConvert nftId sellerId) db nft Hf Hs)
          as [-> _]. exact Hf.
    + rewrite route_frame_lemma by exact E. exact Hf.
Qed.

Lemma retired_is_terminal_without_gift_witness :
  findNft (run afterRetirement dbDanaCashedOut) "n1"
  = Some (certificate "n1" "dana" "RETIRED").
Proof.
  apply retired_is_terminal_without_gift.
  - vm_compute. reflexivity.
  - reflexivity.
  - intros token collaboratorId [H|[H|[H|[H|[]]]]]; discriminate.
Defined.



Lemma dbOk_found db id nft :
  dbOk db -> findNft db id = Some nft -> certificateOk nft.
Proof.
  intros Hok Hf. unfold dbOk in Hok. rewrite Forall_forall in Hok.
  apply Hok. eapply findNft_In. exact Hf.
Qed.

Lemma ladder_usable f :
  In f LADDER_LITERALS -> 0 <= f - f / 10 <= 900000.
Proof.
  intros Hf. unfold LADDER_LITERALS in Hf. cbn [In] in Hf.
  repeat (destruct Hf as [<-|Hf]; [vm_compute; split; discriminate|]). contradiction.
Qed.

(** X19: a successful cash-out retires the certificate and splits its whole
    usable value: the payout and the capture of the answer add up to it. *)
Theorem cashout_pays_the_usable_value token nftId batchCount db body db' :
  dbOk db ->
  nft_cashout token nftId batchCount db = (Respond 200 body, db') ->
  exists nft amount p t,
    findNft db nftId = Some nft /\
    to_Z (Nft.usableValue nft) = Some amount /\
    body = OkPayout (withState "RETIRED" nft)
             {| collaboratorPayout := of_Z p; trebalCapture := of_Z t |} /\
    findNft db' nftId = Some (withState "RETIRED" nft) /\
    0 <= p /\ 0 <= t /\ p + t = amount.
Proof.
  intros Hok. unfold nft_cashout, auth, requireRole, committed.
  repeat (break_match; cbn [fst snd]); intros [= ]; subst.
  clean_tests.
  match goal with H : updateNft _ _ _ _ = Some _ |- _ =>
    apply updateNft_lookup in H; [|reflexivity];
    destruct H as (n0 & F0 & -> & F1 & _) end.
  match goal with H : findNft db nftId = Some ?n |- _ =>
    assert (n0 = n) by congruence; subst n0;
    destruct (dbOk_found _ _ _ Hok H) as ((f & Hf & _ & _ & U) & _) end.
  match goal with H : batchCountSchema _ = true |- _ =>
    apply batchCountSchema_iff in H; destruct H as (k & Hk & Zk) end.
  assert (A := ladder_usable f Hf).
  assert (S : 0 <= f - f / 10 < 2 ^ 53)
    by (change (2 ^ 53) with 9007199254740992; lia).
  destruct (cashOutSplit_table (f - f / 10) S) as (P & HP & _).
  destruct (HP k Hk) as (E & B & _).
  match goal with H : cashOutSplit _ _ = Return _ |- _ =>
    unfold cashOutSplit in H, E;
    rewrite (get_to_Z _ batchCount (of_Z k)) in H
      by (rewrite Zk; symmetry; apply to_Z_of_Z;
          change (2 ^ 53) with 9007199254740992; lia);
    rewrite U in H; rewrite E in H; injection H as <- end.
  do 4 eexists. split; [reflexivity|]. split; [rewrite U; apply to_Z_of_Z; exact S|].
  split; [reflexivity|]. split; [exact F1|]. lia.
Qed.

Lemma cashout_pays_the_usable_value_witness :
  exists nft amount p t,
    findNft dbBobAtCapacity "b1" = Some nft /\
    to_Z (Nft.usableValue nft) = Some amount /\
    OkPayout (certificate "b1" "bob" "RETIRED")
      {| collaboratorPayout := of_Z 360; trebalCapture := of_Z 540 |}
    = OkPayout (withState "RETIRED" nft)
        {| collaboratorPayout := of_Z p; trebalCapture := of_Z t |} /\
    findNft (snd (nft_cashout (Some bob) "b1" (of_Z 3) dbBobAtCapacity)) "b1"
    = Some (withState "RETIRED" nft) /\
    0 <= p /\ 0 <= t /\ p + t = amount.
Proof.
  apply (cashout_pays_the_usable_value (Some bob) "b1" (of_Z 3) dbBobAtCapacity).
  - exact dbBobAtCapacity_ok.
  - vm_compute. reflexivity.
Defined.

(** X20: a successful conversion hands the certificate to the seller in
    state DISTRIBUTION; of its usable value half goes to the collaborator,
    a quarter to the seller, and the rest is the remaining value written on
    the certificate; the fee and the pool of the answer are 10% and 15% of
    the usable value and fit in that rest. *)
Theorem sponsorship_convert_distributes token nftId sellerId db body db' :
  dbOk db ->
  nft_sponsorship_convert token nftId sellerId db = (Respond 200 body, db') ->
  exists nft converted amount c s r,
    findNft db nftId = Some nft /\
    to_Z (Nft.usableValue nft) = Some amount /\
    body = OkSponsorship converted
             {| collaborator := of_Z c; seller := of_Z s; retained := of_Z r |}
             {| platformFee := of_Z (percent 10 amount);
                discountPool := of_Z (percent 15 amount) |} /\
    findNft db' nftId = Some converted /\
    Nft.state converted = "DISTRIBUTION"%string /\
    Nft.ownerId converted = sellerId /\
    Nft.distributionRemainingValue converted = Some (of_Z r) /\
    c = percent 50 amount /\ s = percent 25 amount /\ c + s + r = amount /\
    percent 10 amount + percent 15 amount <= r.
Proof.
  intros Hok. unfold nft_sponsorship_convert, auth, requireRole, committed.
  destruct token as [user|]; [|discriminate].
  destruct (negb (has "COLLABORATOR" (Jwt.roles user))); [discriminate|].
  destruct (findNft db nftId) as [nft|] eqn:F; [|discriminate].
  destruct (negb _); [discriminate|].
  destruct (negb _); [discriminate|].
  destruct (String.eqb _ _); [discriminate|].
  destruct (updateNft _ _ _ _) as [[row d]|] eqn:Up; [|discriminate].
  intros [= <- <-].
  apply updateNft_lookup in Up; [|reflexivity].
  destruct Up as (n0 & F0 & -> & F1 & _). rewrite F in F0. injection F0 as <-.
  destruct (dbOk_found _ _ _ Hok F) as ((f & Hf & _ & _ & U) & _).
  assert (A := ladder_usable f Hf).
  assert (S : 0 <= f - f / 10 < 2 ^ 53)
    by (change (2 ^ 53) with 9007199254740992; lia).
  assert (S' : 0 <= f - f / 10 <= 2 ^ 52)
    by (change (2 ^ 52) with 4503599627370496; lia).
  destruct (sponsorshipSplit_of_Z _ S) as (E & B).
  revert F1. rewrite U, E. unfold distributionInternalAllocationFromUv.
  rewrite floor_tenth, floor_15_percent by exact S'. cbn [retained]. intros F1.
  exists nft. eexists. exists (f - f / 10).
  exists (percent 50 (f - f / 10)), (percent 25 (f - f / 10)),
    (f - f / 10 - percent 50 (f - f / 10) - percent 25 (f - f / 10)).
  split; [reflexivity|]. split; [rewrite U; apply to_Z_of_Z; exact S|].
  split; [reflexivity|]. split; [exact F1|].
  repeat split; try lia.
  unfold percent. Z.div_mod_to_equations. lia.
Qed.

Lemma sponsorship_convert_distributes_witness :
  exists nft converted amount c s r,
    findNft dbWithSeller "b1" = Some nft /\
    to_Z (Nft.usableValue nft) = Some amount /\
    fst (nft_sponsorship_convert (Some bob) "b1" "sam" dbWithSeller)
    = Respond 200
        (OkSponsorship converted
           {| collaborator := of_Z c; seller := of_Z s; retained := of_Z r |}
           {| platformFee := of_Z (percent 10 amount);
              discountPool := of_Z (percent 15 amount) |}) /\
    findNft (snd (nft_sponsorship_convert (Some bob) "b1" "sam" dbWithSeller)) "b1"
    = Some converted /\
    Nft.state converted = "DISTRIBUTION"%string /\
    Nft.ownerId converted = "sam"%string /\
    Nft.distributionRemainingValue converted = Some (of_Z r) /\
    c = percent 50 amount /\ s = percent 25 amount /\ c + s + r = amount /\
    percent 10 amount + percent 15 amount <= r.
Proof.
  destruct (sponsorship_convert_distributes (Some bob) "b1" "sam" dbWithSeller
              (OkSponsorship
                 {| Nft.id := "b1"; Nft.faceValue := of_Z 1000;
                    Nft.lockedValue := of_Z 100; Nft.usableValue := of_Z 900;
                    Nft.state := "DISTRIBUTION"; Nft.ownerId := "sam";
                    Nft.giftedFromId := None;
                    Nft.distributionRemainingValue := Some (of_Z 225) |}
                 {| collaborator := of_Z 450; seller := of_Z 225; retained := of_Z 225 |}
                 {| platformFee := of_Z 90; discountPool := of_Z 135 |})
              (snd (nft_sponsorship_convert (Some bob) "b1" "sam" dbWithSeller))
              dbWithSeller_ok ltac:(vm_compute; reflexivity))
    as (nft & converted & amount & c & s & r & F & U & B & R).
  exists nft, converted, amount, c, s, r.
  split; [exact F|]. split; [exact U|]. split; [|exact R].
  rewrite <- B. vm_compute. reflexivity.
Defined.

(** X21: a purchase under an identifier that is not in the table yet stores
    a certificate that the next lookup finds: it is owned by the caller, in
    state GIFT, with a tenth of the face value locked and the rest usable. *)
Theorem purchase_then_find user f newId db :
  has "CUSTOMER" (Jwt.roles user) = true ->
  In f LADDER_LITERALS ->
  findNft db newId = None ->
  exists created,
    fst (nft_purchase (Some user) (of_Z f) newId db) = Respond 200 (OkNft created) /\
    findNft (snd (nft_purchase (Some user) (of_Z f) newId db)) newId = Some created /\
    Nft.ownerId created = Jwt.sub user /\
    Nft.state created = "GIFT"%string /\
    Nft.faceValue created = of_Z f /\
    Nft.lockedValue created = of_Z (f / 10) /\
    Nft.usableValue created = of_Z (f - f / 10) /\
    f / 10 + (f - f / 10) = f.
Proof.
  intros Hr Hf Hn. destruct (splitLvUv_ladder f Hf) as [E Z].
  assert (A : assertFaceValueAllowed (of_Z f) = Return tt).
  { unfold splitLvUv, bind in E.
    destruct (assertFaceValueAllowed (of_Z f)) as [[]|]; [reflexivity|discriminate]. }
  unfold nft_purchase, auth, requireRole, bind. rewrite Hr, Z, A, E.
  cbn [negb fst snd lv uv]. eexists. split; [reflexivity|].
  split; [|repeat split; lia].
  unfold findNft in *. cbn [nfts]. rewrite find_last, Hn. cbn [Nft.id].
  rewrite String.eqb_refl. reflexivity.
Qed.

Lemma purchase_then_find_witness :
  exists created,
    fst (nft_purchase (Some alice) (of_Z 380000) "n1" emptyDb) = Respond 200 (OkNft created) /\
    findNft (snd (nft_purchase (Some alice) (of_Z 380000) "n1" emptyDb)) "n1" = Some created /\
    Nft.ownerId created = "alice"%string /\
    Nft.state created = "GIFT"%string /\
    Nft.faceValue created = of_Z 380000 /\
    Nft.lockedValue created = of_Z (380000 / 10) /\
    Nft.usableValue created = of_Z (380000 - 380000 / 10) /\
    380000 / 10 + (380000 - 380000 / 10) = 380000.
Proof.
  apply (purchase_then_find alice 380000 "n1" emptyDb).
  - reflexivity.
  - vm_compute. tauto.
  - reflexivity.
Defined.

(** ** The cap on a collaborator's certificates *)

Lemma count_update (l : list Nft.t) id (data : Nft.t -> Nft.t) (p : Nft.t -> bool) :
  (forall n, Nft.id (data n) = Nft.id n) ->
  NoDup (map Nft.id l) ->
  (List.length (filter p (map (fun n => if String.eqb (Nft.id n) id then data n else n) l))
   <= List.length (filter p l) + 1)%nat.
Proof.
  intros Hid. induction l as [|n l IH]; intros Hd; [cbn; lia|].
  cbn [map] in Hd. inversion Hd as [|? ? Hnotin Hd']; subst.
  cbn [map filter].
  destruct (String.eqb_spec (Nft.id n) id) as [E|E].
  - (* the row of the update: no other row has its id *)
    assert (R : map (fun m => if String.eqb (Nft.id m) id then data m else m) l = l).
    { rewrite <- (map_id l) at 2. apply map_ext_in. intros m Hm.
      destruct (String.eqb_spec (Nft.id m) id) as [E'|]; [|reflexivity].
      elim Hnotin. rewrite E, <- E'. apply in_map. exact Hm. }
    rewrite R. destruct (p (data n)), (p n); cbn [List.length]; lia.
  - specialize (IH Hd'). destruct (p n); cbn [List.length]; lia.
Qed.

(** X22: when the identifiers of the certificates are distinct, a
    successful gift leaves the receiving collaborator with at most five
    certificates that are not RETIRED. *)
Theorem gift_keeps_the_cap token nftId collaboratorId db :
  NoDup (map Nft.id (nfts db)) ->
  succeeded (fst (nft_gift token nftId collaboratorId db)) = true ->
  countActive (snd (nft_gift token nftId collaboratorId db)) collaboratorId <= 5.
Proof.
  intros Hd. unfold nft_gift, auth, requireRole, committed, updateNft.
  destruct token as [user|]; [|discriminate].
  destruct (negb (has "CUSTOMER" (Jwt.roles user))); [discriminate|].
  destruct (findNft db nftId) as [nft|] eqn:F; [|discriminate].
  destruct (negb (String.eqb _ _)); [discriminate|].
  destruct (negb _); [discriminate|].
  destruct (Z.leb_spec 5 (countActive db collaboratorId)) as [|C]; [discriminate|].
  intros _. cbn [snd]. unfold countActive in *. cbn [nfts].
  match goal with
  | |- Z.of_nat (List.length (filter ?p (map (fun n => if _ then @?data n else _) _))) <= _ =>
      assert (B := count_update (nfts db) nftId data p (fun _ => eq_refl) Hd)
  end.
  cbv beta in B. lia.
Qed.

Lemma gift_keeps_the_cap_witness :
  countActive (snd (nft_gift (Some alice) "a1" "dana" dbBobAtCapacity)) "dana" <= 5.
Proof.
  apply gift_keeps_the_cap.
  - cbn. repeat (constructor; [cbn; intuition discriminate|]). constructor.
  - reflexivity.
Defined.
